(** * moondream-go: the API client of [internal/moondream]

    A shallow embedding of the client (construction options, the image
    encoder, the request executor [sendRequest] with its retry loop) and of
    the parts of the Go libraries it calls, followed by the properties of
    the specification.

    Conventions.
    - A Go [string] and a Go [[]byte] are both sequences of 8-bit bytes:
      they are Rocq [string]s, a byte is an [ascii].
    - A Go [int] (64-bit) and a [time.Duration] (an [int64] count of
      nanoseconds) are [Z]; where the code computes with them the
      wrap-around is written out ([wrap64]).
    - A Go [(T, error)] result is a [Result T]; [error] values are the
      inductive type [error].
    - What the code obtains from outside (the file system, the outcome of a
      [select], the answer of the HTTP transport) comes from a [World]. *)

From Stdlib Require Import ZArith Ascii String List Lia Bool.
From stdpp Require Import base gmap strings.
Import ListNotations.

Open Scope string_scope.
Open Scope list_scope.
Open Scope Z_scope.

Set Warnings "-register-all".

(** ** Errors and results *)

(** [APIError]: the error body of the API. *)
Record APIError : Type := mkAPIError {
  StatusCode : Z;      (* `json:"status_code"` *)
  Message : string     (* `json:"message"` *)
}.

(** The two errors [ctx.Err()] can return. *)
Inductive ctx_error : Type :=
| Canceled
| DeadlineExceeded.

(** Go [error] values, as far as this package builds or forwards them. *)
Inductive error : Type :=
| ErrLib (pkg : string) (msg : string)        (* an error made inside a library *)
| ErrContext (e : ctx_error)                  (* ctx.Err() *)
| ErrAPI (e : APIError)                       (* &apiErr *)
| ErrWrap (msg : string) (inner : option error). (* fmt.Errorf(msg + ": %w", inner) *)

Inductive Result (A : Type) : Type :=
| Ok (a : A)
| Err (e : error).
Arguments Ok {A} a.
Arguments Err {A} e.

(** ** Bytes and machine integers *)

Definition byte_to_Z (b : ascii) : Z := Z.of_N (N_of_ascii b).

(** Go's conversion [byte(x)]: the low eight bits. *)
Definition Z_to_byte (z : Z) : ascii := ascii_of_N (Z.to_N (Z.land z 255)).

Definition min_int64 : Z := - 2 ^ 63.
Definition max_int64 : Z := 2 ^ 63 - 1.

(** Two's complement wrap-around of a 64-bit signed result. *)
Definition wrap64 (z : Z) : Z := (z + 2 ^ 63) mod 2 ^ 64 - 2 ^ 63.

Definition in_int64 (z : Z) : Prop := min_int64 <= z <= max_int64.

(** ** encoding/base64: [StdEncoding] *)

Module base64.

Definition encodeStd : string :=
  "ABCDEFGHIJKLMNOPQRSTUVWXYZabcdefghijklmnopqrstuvwxyz0123456789+/".

Definition StdPadding : ascii := "="%char.

(** [enc.encode[v]] *)
Definition encode (v : Z) : ascii :=
  match String.get (Z.to_nat v) encodeStd with
  | Some c => c
  | None => "000"%char
  end.

Fixpoint index_from (c : ascii) (s : string) (i : Z) : option Z :=
  match s with
  | EmptyString => None
  | String c' s' => if Ascii.eqb c c' then Some i else index_from c s' (i + 1)
  end.

(** [enc.decodeMap[c]]: the position of [c] in the alphabet, 0xFF when
    it has none. *)
Definition decodeMap (c : ascii) : Z :=
  match index_from c encodeStd 0 with
  | Some i => i
  | None => 255
  end.

(** [Encode]: three source bytes give four characters; a remainder of
    one or two bytes is completed with padding. *)
Fixpoint EncodeToString (src : string) : string :=
  match src with
  | String b0 (String b1 (String b2 rest)) =>
      let val := Z.lor (Z.lor (Z.shiftl (byte_to_Z b0) 16)
                              (Z.shiftl (byte_to_Z b1) 8))
                       (byte_to_Z b2) in
      String (encode (Z.land (Z.shiftr val 18) 63))
        (String (encode (Z.land (Z.shiftr val 12) 63))
          (String (encode (Z.land (Z.shiftr val 6) 63))
            (String (encode (Z.land val 63))
              (EncodeToString rest))))
  | String b0 (String b1 EmptyString) =>
      let val := Z.lor (Z.shiftl (byte_to_Z b0) 16)
                       (Z.shiftl (byte_to_Z b1) 8) in
      String (encode (Z.land (Z.shiftr val 18) 63))
        (String (encode (Z.land (Z.shiftr val 12) 63))
          (String (encode (Z.land (Z.shiftr val 6) 63))
            (String StdPadding EmptyString)))
  | String b0 EmptyString =>
      let val := Z.shiftl (byte_to_Z b0) 16 in
      String (encode (Z.land (Z.shiftr val 18) 63))
        (String (encode (Z.land (Z.shiftr val 12) 63))
          (String StdPadding (String StdPadding EmptyString)))
  | EmptyString => EmptyString
  end.

Definition CorruptInputError : error := ErrLib "base64" "illegal base64 data".

Definition is_newline (c : ascii) : bool :=
  Ascii.eqb c "010"%char || Ascii.eqb c "013"%char.

Fixpoint skip_newlines (s : string) : string :=
  match s with
  | String c rest => if is_newline c then skip_newlines rest else s
  | EmptyString => s
  end.

(** The value of a quantum of four 6-bit digits. *)
Definition quantum (d0 d1 d2 d3 : Z) : Z :=
  Z.lor (Z.lor (Z.lor (Z.shiftl d0 18) (Z.shiftl d1 12)) (Z.shiftl d2 6)) d3.

(** [Decode] / [decodeQuantum] (not strict, with padding): [dbuf] holds
    the digits of the quantum read so far. Line breaks are skipped; a
    quantum cut short by the end of the input, padding in the wrong
    place and anything after the padding are corrupt input. *)
Fixpoint decode (src : string) (dbuf : list Z) : Result string :=
  match src with
  | EmptyString =>
      match dbuf with
      | [] => Ok EmptyString
      | _ => Err CorruptInputError
      end
  | String c rest =>
      let out := decodeMap c in
      if out =? 255 then
        if is_newline c then decode rest dbuf
        else if Ascii.eqb c StdPadding then
          match dbuf with
          | [d0; d1] =>
              match skip_newlines rest with
              | String c' rest' =>
                  if Ascii.eqb c' StdPadding then
                    match skip_newlines rest' with
                    | EmptyString =>
                        let val := quantum d0 d1 0 0 in
                        Ok (String (Z_to_byte (Z.shiftr val 16)) EmptyString)
                    | _ => Err CorruptInputError
                    end
                  else Err CorruptInputError
              | EmptyString => Err CorruptInputError
              end
          | [d0; d1; d2] =>
              match skip_newlines rest with
              | EmptyString =>
                  let val := quantum d0 d1 d2 0 in
                  Ok (String (Z_to_byte (Z.shiftr val 16))
                       (String (Z_to_byte (Z.shiftr val 8)) EmptyString))
              | _ => Err CorruptInputError
              end
          | _ => Err CorruptInputError
          end
        else Err CorruptInputError
      else
        match dbuf with
        | [d0; d1; d2] =>
            let val := quantum d0 d1 d2 out in
            match decode rest [] with
            | Ok tl =>
                Ok (String (Z_to_byte (Z.shiftr val 16))
                     (String (Z_to_byte (Z.shiftr val 8))
                       (String (Z_to_byte val) tl)))
            | Err e => Err e
            end
        | _ => decode rest (dbuf ++ [out])
        end
  end.

Definition DecodeString (s : string) : Result string := decode s [].

End base64.

(** ** unicode/utf8 *)

Module utf8.

Definition between (lo hi : Z) (c : ascii) : bool :=
  (lo <=? byte_to_Z c) && (byte_to_Z c <=? hi).

Definition continuation (c : ascii) : bool := between 128 191 c.

(** The bytes after a lead byte [b0]: how many follow and the range the
    first of them must lie in ([first] and [acceptRanges]). *)
Definition lead (b0 : Z) : option (nat * Z * Z) :=
  if (194 <=? b0) && (b0 <=? 223) then Some (1%nat, 128, 191)
  else if b0 =? 224 then Some (2%nat, 160, 191)
  else if (225 <=? b0) && (b0 <=? 236) then Some (2%nat, 128, 191)
  else if b0 =? 237 then Some (2%nat, 128, 159)
  else if (238 <=? b0) && (b0 <=? 239) then Some (2%nat, 128, 191)
  else if b0 =? 240 then Some (3%nat, 144, 191)
  else if (241 <=? b0) && (b0 <=? 243) then Some (3%nat, 128, 191)
  else if b0 =? 244 then Some (3%nat, 128, 143)
  else None.

(** [DecodeRune] on [c0 :: rest], as far as its width: [Some n] when
    [c0] and the [n] bytes after it encode one rune, [None] when
    [DecodeRune] answers [(RuneError, 1)]. *)
Definition following (c0 : ascii) (rest : string) : option nat :=
  if byte_to_Z c0 <? 128 then Some 0%nat
  else
    match lead (byte_to_Z c0), rest with
    | Some (1%nat, lo, hi), String c1 _ =>
        if between lo hi c1 then Some 1%nat else None
    | Some (2%nat, lo, hi), String c1 (String c2 _) =>
        if between lo hi c1 && continuation c2 then Some 2%nat else None
    | Some (3%nat, lo, hi), String c1 (String c2 (String c3 _)) =>
        if between lo hi c1 && continuation c2 && continuation c3
        then Some 3%nat else None
    | _, _ => None
    end.

Definition RuneError : Z := 65533.

Definition surrogate (r : Z) : bool := (55296 <=? r) && (r <? 57344).

(** [EncodeRune] (surrogates and values out of range become U+FFFD). *)
Definition EncodeRune (r0 : Z) : list ascii :=
  let r := if (r0 <? 0) || (1114111 <? r0) || surrogate r0
           then RuneError else r0 in
  if r <? 128 then [Z_to_byte r]
  else if r <? 2048 then
    [Z_to_byte (Z.lor 192 (Z.shiftr r 6));
     Z_to_byte (Z.lor 128 (Z.land r 63))]
  else if r <? 65536 then
    [Z_to_byte (Z.lor 224 (Z.shiftr r 12));
     Z_to_byte (Z.lor 128 (Z.land (Z.shiftr r 6) 63));
     Z_to_byte (Z.lor 128 (Z.land r 63))]
  else
    [Z_to_byte (Z.lor 240 (Z.shiftr r 18));
     Z_to_byte (Z.lor 128 (Z.land (Z.shiftr r 12) 63));
     Z_to_byte (Z.lor 128 (Z.land (Z.shiftr r 6) 63));
     Z_to_byte (Z.lor 128 (Z.land r 63))].

End utf8.

(** ** encoding/json *)

Module json.

(** A JSON text, parsed. A number keeps its literal. *)
Inductive value : Type :=
| Null
| Bool (b : bool)
| Number (lit : string)
| Str (s : string)
| Array (elems : list value)
| Object (members : list (string * value)).

Inductive token : Type :=
| TBeginObject | TEndObject | TBeginArray | TEndArray | TColon | TComma
| TString (s : string) | TNumber (lit : string)
| TTrue | TFalse | TNull.

(** Where the scanner is inside a number: after the sign, after a
    leading zero, in the integer digits, after the point, in the
    fraction, after the [e], after the sign of the exponent, in the
    exponent. *)
Inductive num_state : Type :=
| NNeg | N0 | N1 | NDot | NDot0 | NE | NESign | NE0.

Inductive mode : Type :=
| MTop
| MString (acc : list ascii) (pending : nat)
| MNumber (st : num_state) (acc : list ascii).

Definition eqc (c : ascii) (ch : ascii) : bool := Ascii.eqb c ch.

Definition isSpace (c : ascii) : bool :=
  eqc c " " || eqc c "009" || eqc c "013" || eqc c "010".

Definition digit (c : ascii) : bool := utf8.between 48 57 c.
Definition digit19 (c : ascii) : bool := utf8.between 49 57 c.

Definition punct (c : ascii) : option token :=
  if eqc c "{" then Some TBeginObject
  else if eqc c "}" then Some TEndObject
  else if eqc c "[" then Some TBeginArray
  else if eqc c "]" then Some TEndArray
  else if eqc c ":" then Some TColon
  else if eqc c "," then Some TComma
  else None.

(** One more character of a number, when the grammar allows it. *)
Definition num_step (st : num_state) (c : ascii) : option num_state :=
  match st with
  | NNeg => if eqc c "0" then Some N0 else if digit19 c then Some N1 else None
  | N0 =>
      if eqc c "." then Some NDot
      else if eqc c "e" || eqc c "E" then Some NE else None
  | N1 =>
      if digit c then Some N1
      else if eqc c "." then Some NDot
      else if eqc c "e" || eqc c "E" then Some NE else None
  | NDot => if digit c then Some NDot0 else None
  | NDot0 =>
      if digit c then Some NDot0
      else if eqc c "e" || eqc c "E" then Some NE else None
  | NE =>
      if eqc c "+" || eqc c "-" then Some NESign
      else if digit c then Some NE0 else None
  | NESign => if digit c then Some NE0 else None
  | NE0 => if digit c then Some NE0 else None
  end.

Definition num_complete (st : num_state) : bool :=
  match st with
  | N0 | N1 | NDot0 | NE0 => true
  | _ => false
  end.

Definition hex (c : ascii) : option Z :=
  let n := byte_to_Z c in
  if (48 <=? n) && (n <=? 57) then Some (n - 48)
  else if (97 <=? n) && (n <=? 102) then Some (n - 87)
  else if (65 <=? n) && (n <=? 70) then Some (n - 55)
  else None.

(** [getu4]: the value of four hexadecimal digits. *)
Definition getu4 (h1 h2 h3 h4 : ascii) : option Z :=
  match hex h1, hex h2, hex h3, hex h4 with
  | Some a, Some b, Some c, Some d => Some (((a * 16 + b) * 16 + c) * 16 + d)
  | _, _, _, _ => None
  end.

(** What a backslash followed by [e] stands for (all but [\u]). *)
Definition escape (e : ascii) : option ascii :=
  if eqc e "034" || eqc e "\" || eqc e "/" then Some e
  else if eqc e "b" then Some "008"%char
  else if eqc e "f" then Some "012"%char
  else if eqc e "n" then Some "010"%char
  else if eqc e "r" then Some "013"%char
  else if eqc e "t" then Some "009"%char
  else None.

(** [utf16.DecodeRune] on a pair of surrogates. *)
Definition surrogate_pair (r1 r2 : Z) : option Z :=
  if (55296 <=? r1) && (r1 <? 56320) && (56320 <=? r2) && (r2 <? 57344)
  then Some (Z.lor (Z.shiftl (r1 - 55296) 10) (r2 - 56320) + 65536)
  else None.

Definition push (bs : list ascii) (acc : list ascii) : list ascii :=
  rev bs ++ acc.

Definition text (acc : list ascii) : string := string_of_list_ascii (rev acc).

(** The low surrogate of a [\u] escape that may follow a high one. *)
Definition low_escape (s : string) : option Z :=
  match s with
  | String b (String u (String k1 (String k2 (String k3 (String k4 _))))) =>
      if eqc b "\" && eqc u "u" then getu4 k1 k2 k3 k4 else None
  | _ => None
  end.

(** The scanner, with the unquoting of string literals ([unquote]) done
    on the way: escapes are replaced, a lone surrogate and a byte that
    is not UTF-8 become U+FFFD. [acc] and [toks] are kept reversed;
    [pending] counts the bytes of a checked UTF-8 sequence still to be
    copied. *)
Fixpoint scan (s : string) (m : mode) (toks : list token)
  : option (list token) :=
  match s with
  | EmptyString =>
      match m with
      | MTop => Some (rev toks)
      | MString _ _ => None
      | MNumber st acc =>
          if num_complete st then Some (rev (TNumber (text acc) :: toks))
          else None
      end
  | String c r =>
      match m with
      | MTop =>
          if isSpace c then scan r MTop toks
          else
            match punct c with
            | Some t => scan r MTop (t :: toks)
            | None =>
                if eqc c "034" then scan r (MString [] 0) toks
                else if eqc c "-" then scan r (MNumber NNeg [c]) toks
                else if eqc c "0" then scan r (MNumber N0 [c]) toks
                else if digit19 c then scan r (MNumber N1 [c]) toks
                else
                  match r with
                  | String c1 (String c2 (String c3 r3)) =>
                      if eqc c "t" && eqc c1 "r" && eqc c2 "u" && eqc c3 "e"
                      then scan r3 MTop (TTrue :: toks)
                      else if eqc c "n" && eqc c1 "u" && eqc c2 "l" && eqc c3 "l"
                      then scan r3 MTop (TNull :: toks)
                      else
                        match r3 with
                        | String c4 r4 =>
                            if eqc c "f" && eqc c1 "a" && eqc c2 "l"
                               && eqc c3 "s" && eqc c4 "e"
                            then scan r4 MTop (TFalse :: toks)
                            else None
                        | EmptyString => None
                        end
                  | _ => None
                  end
            end
      | MNumber st acc =>
          match num_step st c with
          | Some st' => scan r (MNumber st' (c :: acc)) toks
          | None =>
              if num_complete st then
                let toks' := TNumber (text acc) :: toks in
                if isSpace c then scan r MTop toks'
                else
                  match punct c with
                  | Some t => scan r MTop (t :: toks')
                  | None => None
                  end
              else None
          end
      | MString acc (S k) => scan r (MString (c :: acc) k) toks
      | MString acc O =>
          if eqc c "034" then scan r MTop (TString (text acc) :: toks)
          else if eqc c "\" then
            match r with
            | String e r1 =>
                match escape e with
                | Some x => scan r1 (MString (x :: acc) 0) toks
                | None =>
                    if eqc e "u" then
                      match r1 with
                      | String h1 (String h2 (String h3 (String h4 r5))) =>
                          match getu4 h1 h2 h3 h4 with
                          | None => None
                          | Some rr =>
                              if utf8.surrogate rr then
                                match r5 with
                                | String _ (String _ (String _
                                    (String _ (String _ (String _ r11))))) =>
                                    match low_escape r5 with
                                    | Some rr1 =>
                                        match surrogate_pair rr rr1 with
                                        | Some dec =>
                                            scan r11
                                              (MString (push (utf8.EncodeRune dec) acc) 0)
                                              toks
                                        | None =>
                                            scan r5
                                              (MString (push (utf8.EncodeRune utf8.RuneError) acc) 0)
                                              toks
                                        end
                                    | None =>
                                        scan r5
                                          (MString (push (utf8.EncodeRune utf8.RuneError) acc) 0)
                                          toks
                                    end
                                | _ =>
                                    scan r5
                                      (MString (push (utf8.EncodeRune utf8.RuneError) acc) 0)
                                      toks
                                end
                              else
                                scan r5 (MString (push (utf8.EncodeRune rr) acc) 0) toks
                          end
                      | _ => None
                      end
                    else None
                end
            | EmptyString => None
            end
          else if byte_to_Z c <? 32 then None
          else
            match utf8.following c r with
            | Some k => scan r (MString (c :: acc) k) toks
            | None =>
                scan r (MString (push (utf8.EncodeRune utf8.RuneError) acc) 0) toks
            end
      end
  end.

(** A container being read: the elements or members so far (reversed)
    and, for an object, the key whose value is awaited. *)
Inductive frame : Type :=
| InArray (elems : list value)
| InObject (members : list (string * value)) (key : string).

(** What may come next. *)
Inductive expect : Type :=
| BeginValue            (* a value *)
| BeginValueOrEmpty     (* after [: a value or ] *)
| BeginStringOrEmpty    (* after {: a key or } *)
| ObjectKey             (* after a comma in an object: a key *)
| ObjectColon           (* after a key: the colon *)
| EndValue              (* after a value in a container: comma or close *)
| EndTop (v : value).   (* after the top-level value: nothing *)

Definition maxNestingDepth : Z := 10000.

(** A finished value goes to the container around it. *)
Definition deliver (v : value) (stack : list frame) : list frame * expect :=
  match stack with
  | [] => ([], EndTop v)
  | InArray es :: st => (InArray (v :: es) :: st, EndValue)
  | InObject ms k :: st => (InObject ((k, v) :: ms) k :: st, EndValue)
  end.

Definition open (f : frame) (stack : list frame) (e : expect)
  : option (list frame * expect) :=
  if Z.of_nat (length stack) <? maxNestingDepth then Some (f :: stack, e)
  else None.

Definition begin_value (t : token) (stack : list frame)
  : option (list frame * expect) :=
  match t with
  | TBeginObject => open (InObject [] EmptyString) stack BeginStringOrEmpty
  | TBeginArray => open (InArray []) stack BeginValueOrEmpty
  | TString v => Some (deliver (Str v) stack)
  | TNumber lit => Some (deliver (Number lit) stack)
  | TTrue => Some (deliver (Bool true) stack)
  | TFalse => Some (deliver (Bool false) stack)
  | TNull => Some (deliver Null stack)
  | _ => None
  end.

Definition close_array (stack : list frame) : option (list frame * expect) :=
  match stack with
  | InArray es :: st => Some (deliver (Array (rev es)) st)
  | _ => None
  end.

Definition close_object (stack : list frame) : option (list frame * expect) :=
  match stack with
  | InObject ms _ :: st => Some (deliver (Object (rev ms)) st)
  | _ => None
  end.

Definition object_key (t : token) (stack : list frame)
  : option (list frame * expect) :=
  match t, stack with
  | TString k, InObject ms _ :: st => Some (InObject ms k :: st, ObjectColon)
  | _, _ => None
  end.

Definition step (t : token) (stack : list frame) (e : expect)
  : option (list frame * expect) :=
  match e with
  | BeginValue => begin_value t stack
  | BeginValueOrEmpty =>
      match t with
      | TEndArray => close_array stack
      | _ => begin_value t stack
      end
  | BeginStringOrEmpty =>
      match t with
      | TEndObject => close_object stack
      | _ => object_key t stack
      end
  | ObjectKey => object_key t stack
  | ObjectColon =>
      match t with
      | TColon => Some (stack, BeginValue)
      | _ => None
      end
  | EndValue =>
      match t, stack with
      | TComma, InArray _ :: _ => Some (stack, BeginValue)
      | TComma, InObject _ _ :: _ => Some (stack, ObjectKey)
      | TEndArray, _ => close_array stack
      | TEndObject, _ => close_object stack
      | _, _ => None
      end
  | EndTop _ => None
  end.

Fixpoint build (toks : list token) (stack : list frame) (e : expect)
  : option value :=
  match toks with
  | [] =>
      match e with
      | EndTop v => Some v
      | _ => None
      end
  | t :: rest =>
      match step t stack e with
      | Some (stack', e') => build rest stack' e'
      | None => None
      end
  end.

(** The syntax check of [Unmarshal] ([checkValid]) and the value read:
    [None] is a [SyntaxError]. *)
Definition parse (data : string) : option value :=
  match scan data MTop [] with
  | Some toks => build toks [] BeginValue
  | None => None
  end.

Definition Valid (data : string) : bool :=
  match parse data with
  | Some _ => true
  | None => false
  end.

Definition SyntaxError : error := ErrLib "json" "invalid character".

(** [UnmarshalTypeError]: a JSON value of kind [v] met a Go [target]. *)
Definition UnmarshalTypeError (v : string) (target : string) : error :=
  ErrLib "json" ("cannot unmarshal " ++ v ++ " into Go value of type " ++ target)%string.

Definition kind (v : value) : string :=
  match v with
  | Null => "null"
  | Bool _ => "bool"
  | Number _ => "number"
  | Str _ => "string"
  | Array _ => "array"
  | Object _ => "object"
  end.

(** Field names are matched exactly or, failing that, without regard to
    case ([foldName]). The names of this package's fields are ASCII, and
    the runes whose case folding is an ASCII letter are the ASCII letters,
    U+017F (the long s, bytes C5 BF) and U+212A (the Kelvin sign, bytes
    E2 84 AA): these are folded, any other byte is kept. *)
Definition upper (c : ascii) : ascii :=
  if utf8.between 97 122 c then Z_to_byte (byte_to_Z c - 32) else c.

Fixpoint foldName (s : string) : string :=
  match s with
  | EmptyString => EmptyString
  | String c r =>
      match r with
      | String c1 r1 =>
          if (byte_to_Z c =? 197) && (byte_to_Z c1 =? 191)
          then String "S" (foldName r1)
          else
            match r1 with
            | String c2 r2 =>
                if (byte_to_Z c =? 226) && (byte_to_Z c1 =? 132)
                   && (byte_to_Z c2 =? 170)
                then String "K" (foldName r2)
                else String (upper c) (foldName r)
            | EmptyString => String (upper c) (foldName r)
            end
      | EmptyString => String (upper c) (foldName r)
      end
  end.

Definition field_match (name key : string) : bool :=
  String.eqb (foldName key) (foldName name).

Fixpoint digits (s : string) (acc : Z) : option Z :=
  match s with
  | EmptyString => Some acc
  | String c r =>
      if digit c then digits r (10 * acc + (byte_to_Z c - 48)) else None
  end.

(** [strconv.ParseInt(lit, 10, 64)] on a number literal: an integer
    without fraction or exponent, in the range of [int64]. *)
Definition ParseInt (lit : string) : option Z :=
  let n :=
    match lit with
    | EmptyString => None
    | String c r =>
        if eqc c "-" then
          match r with
          | EmptyString => None
          | _ => option_map Z.opp (digits r 0)
          end
        else digits lit 0
    end in
  match n with
  | Some z => if (min_int64 <=? z) && (z <=? max_int64) then Some z else None
  | None => None
  end.

(** The store of a value into a field of kind [int] and into one of
    kind [string] ([literalStore]): [null] leaves the field alone, a
    value of another kind is a type error. *)
Definition store_int (v : value) (old : Z) : Z * option error :=
  match v with
  | Null => (old, None)
  | Number lit =>
      match ParseInt lit with
      | Some z => (z, None)
      | None => (old, Some (UnmarshalTypeError ("number " ++ lit) "int"))
      end
  | _ => (old, Some (UnmarshalTypeError (kind v) "int"))
  end.

Definition store_string (v : value) (old : string) : string * option error :=
  match v with
  | Null => (old, None)
  | Str s => (s, None)
  | _ => (old, Some (UnmarshalTypeError (kind v) "string"))
  end.

(** The first error is the one kept ([saveError]). *)
Definition saveError (saved new : option error) : option error :=
  match saved with
  | Some e => Some e
  | None => new
  end.

(** The store of a value into a struct ([d.value], [d.object]):
    [assign] stores the value of one member into the field its key
    names, if any. The members are stored in the order of the text, and
    the store goes on after a type error. *)
Definition store_struct {T : Type}
    (target : string) (assign : string -> value -> T -> T * option error)
    (v : value) (t : T) : T * option error :=
  match v with
  | Null => (t, None)
  | Object members =>
      fold_left
        (fun (st : T * option error) (m : string * value) =>
           let (t1, e1) := assign (fst m) (snd m) (fst st) in
           (t1, saveError (snd st) e1))
        members (t, None)
  | _ => (t, Some (UnmarshalTypeError (kind v) target))
  end.

(** [Unmarshal(data, &t)]: nothing is stored when the text is not
    valid JSON. *)
Definition Unmarshal_struct {T : Type}
    (target : string) (assign : string -> value -> T -> T * option error)
    (data : string) (t : T) : T * option error :=
  match parse data with
  | None => (t, Some SyntaxError)
  | Some v => store_struct target assign v t
  end.

Definition hexdigit (n : Z) : ascii :=
  if n <? 10 then Z_to_byte (48 + n) else Z_to_byte (87 + n).

Definition u00 (b : Z) : list ascii :=
  ["\"; "u"; "0"; "0"; hexdigit (Z.shiftr b 4); hexdigit (Z.land b 15)]%char.

(** The bytes a string literal writes for [c], the first byte of a rune
    that takes [k] more bytes ([appendString] with HTML escaping):
    [None] when the bytes are copied as they are. *)
Definition escaped (c : ascii) (r : string) : option (list ascii) :=
  let b := byte_to_Z c in
  if b <? 128 then
    if eqc c "034" || eqc c "\" then Some ["\"%char; c]
    else if eqc c "008" then Some ["\"; "b"]%char
    else if eqc c "012" then Some ["\"; "f"]%char
    else if eqc c "010" then Some ["\"; "n"]%char
    else if eqc c "013" then Some ["\"; "r"]%char
    else if eqc c "009" then Some ["\"; "t"]%char
    else if (b <? 32) || eqc c "&" || eqc c "<" || eqc c ">" then Some (u00 b)
    else None
  else
    match r with
    | String c1 (String c2 _) =>
        if (b =? 226) && (byte_to_Z c1 =? 128) && (byte_to_Z c2 =? 168)
        then Some ["\"; "u"; "2"; "0"; "2"; "8"]%char
        else if (b =? 226) && (byte_to_Z c1 =? 128) && (byte_to_Z c2 =? 169)
        then Some ["\"; "u"; "2"; "0"; "2"; "9"]%char
        else None
    | _ => None
    end.

(** The inside of a string literal for [s]; [pending] counts the bytes
    of the current rune still to come, [skip] tells whether they are
    dropped (the rune was written as an escape) or copied. *)
Fixpoint appendString (s : string) (pending : nat) (skip : bool) : list ascii :=
  match s with
  | EmptyString => []
  | String c r =>
      match pending with
      | S k => if skip then appendString r k skip else c :: appendString r k skip
      | O =>
          match utf8.following c r with
          | None => ["\"; "u"; "f"; "f"; "f"; "d"]%char ++ appendString r 0 false
          | Some k =>
              match escaped c r with
              | Some bs => bs ++ appendString r k true
              | None => c :: appendString r k false
              end
          end
      end
  end.

(** The literal [Marshal] writes for a Go string. *)
Definition quote (s : string) : string :=
  String "034" (string_of_list_ascii (appendString s 0 false) ++ String "034" EmptyString)%string.

End json.

(** What [json.Marshal] and [json.Unmarshal] do depends on the Go type of
    their argument: one instance per type. [json_Unmarshal data r] is
    [json.Unmarshal(data, &r)]: the new content of [r] and the error. *)
Class Marshaler (P : Type) := json_Marshal : P -> Result string.
Class Unmarshaler (R : Type) := json_Unmarshal : string -> R -> R * option error.

(** ** net/http *)

Module http.

Record Client : Type := mkClient { Timeout : Z }.

(** The request object. [Hdr] is its [Header]: the values of each key.
    [Body] is the content the body is created with: the body is a
    one-shot reader over these bytes, which the transport reads and which
    nothing in this package rewinds. The request object is the same at
    every attempt; how much of its body is still unread when a later
    attempt hands it over is the transport's doing and is not recorded. *)
Record Request : Type := mkRequest {
  Method : string;
  URL : string;
  Hdr : gmap string (list string);
  Body : string
}.

(** [req.Header.Set(key, value)]; the keys this package sets are in the
    canonical form that [Set] gives a key. *)
Definition Header_Set (key value : string) (req : Request) : Request :=
  {| Method := Method req; URL := URL req;
     Hdr := <[ key := [value] ]> (Hdr req); Body := Body req |}.

End http.

(** ** The world outside the package *)

(** How the [select] of a backoff wait ends. *)
Inductive select_outcome : Type :=
| CtxDone (e : ctx_error)    (* case <-ctx.Done() *)
| TimerFired.                (* case <-time.After(d) *)

(** [io.ReadAll(resp.Body)]: the body, an error, or no return at all
    (nothing bounds the read when the timeout of the client is 0 and the
    context is never done). *)
Inductive body_outcome : Type :=
| BodyRead (body : string)
| BodyError (e : error)
| BodyNeverReturns.

(** [c.client.Do(req)]: an error, a response, or no return at all. *)
Inductive do_outcome : Type :=
| DoError (e : error)
| DoResponse (status : Z) (body : body_outcome)
| DoNeverReturns.

Record World : Type := mkWorld {
  (* os.ReadFile(path) *)
  os_ReadFile : string -> Result string;
  (* the error of http.NewRequestWithContext for a method and a URL *)
  http_NewRequest_error : string -> string -> option error;
  (* the select of attempt n on ctx.Done() and a timer of d nanoseconds *)
  ctx_select : Z -> Z -> select_outcome;
  (* the answer to the request sent at attempt n *)
  client_Do : Z -> http.Request -> do_outcome
}.

Definition http_NewRequestWithContext
    (w : World) (method url body : string) : Result http.Request :=
  match http_NewRequest_error w method url with
  | Some e => Err e
  | None => Ok {| http.Method := method; http.URL := url;
                  http.Hdr := ∅; http.Body := body |}
  end.

(** What an invocation does that the world can see. [EvDo req] tells
    that the request object [req] was handed to the transport, not what
    the transport still found unread in its body. *)
Inductive event : Type :=
| EvWait (d : Z)              (* a timer of d nanoseconds ran out *)
| EvCancelled (d : Z)         (* ctx.Done() came before that timer *)
| EvDo (req : http.Request).  (* a request was handed to the transport *)

(** ** The types of the package *)

Definition APIError_assign (key : string) (v : json.value) (e : APIError)
  : APIError * option error :=
  if json.field_match "status_code" key then
    let (n, err) := json.store_int v (StatusCode e) in
    ({| StatusCode := n; Message := Message e |}, err)
  else if json.field_match "message" key then
    let (m, err) := json.store_string v (Message e) in
    ({| StatusCode := StatusCode e; Message := m |}, err)
  else (e, None).

Instance APIError_Unmarshaler : Unmarshaler APIError :=
  json.Unmarshal_struct "moondream.APIError" APIError_assign.

Record ClientConfig : Type := mkClientConfig {
  Timeout : Z;        (* time.Duration *)
  BaseURL : string;
  MaxRetries : Z;     (* int *)
  RetryDelay : Z      (* time.Duration *)
}.

Record MoondreamClient : Type := mkMoondreamClient {
  config : ClientConfig;
  client : http.Client;
  apiKey : string
}.

Definition ClientOption : Type := MoondreamClient -> MoondreamClient.

Record CaptionRequest : Type := mkCaptionRequest {
  Image : string;     (* `json:"image_url"` *)
  Length : string     (* `json:"length"` *)
}.

Instance CaptionRequest_Marshaler : Marshaler CaptionRequest :=
  fun r =>
    Ok ("{" ++ json.quote "image_url" ++ ":" ++ json.quote (Image r) ++ ","
            ++ json.quote "length" ++ ":" ++ json.quote (Length r) ++ "}")%string.

Record CaptionResponse : Type := mkCaptionResponse {
  Caption : string    (* `json:"caption"` *)
}.

Definition CaptionResponse_assign (key : string) (v : json.value)
    (r : CaptionResponse) : CaptionResponse * option error :=
  if json.field_match "caption" key then
    let (c, err) := json.store_string v (Caption r) in
    ({| Caption := c |}, err)
  else (r, None).

Instance CaptionResponse_Unmarshaler : Unmarshaler CaptionResponse :=
  json.Unmarshal_struct "moondream.CaptionResponse" CaptionResponse_assign.

(** ** The client *)

Definition Nanosecond : Z := 1.
Definition Second : Z := 1000000000 * Nanosecond.

Definition defaultTimeout : Z := 30 * Second.
Definition defaultBaseURL : string := "https://api.moondream.ai/v1".
Definition defaultMaxRetries : Z := 3.
Definition defaultRetryDelay : Z := 1 * Second.

Definition NewMoondreamClient (apiKey : string) (opts : list ClientOption)
  : MoondreamClient :=
  let config := {| Timeout := defaultTimeout;
                   BaseURL := defaultBaseURL;
                   MaxRetries := defaultMaxRetries;
                   RetryDelay := defaultRetryDelay |} in
  let client := {| config := config;
                   client := {| http.Timeout := Timeout config |};
                   apiKey := apiKey |} in
  fold_left (fun c (opt : ClientOption) => opt c) opts client.

Definition WithTimeout (timeout : Z) : ClientOption :=
  fun c =>
    {| config := {| Timeout := timeout;
                    BaseURL := BaseURL (config c);
                    MaxRetries := MaxRetries (config c);
                    RetryDelay := RetryDelay (config c) |};
       client := {| http.Timeout := timeout |};
       apiKey := apiKey c |}.

Definition WithBaseURL (baseURL : string) : ClientOption :=
  fun c =>
    {| config := {| Timeout := Timeout (config c);
                    BaseURL := baseURL;
                    MaxRetries := MaxRetries (config c);
                    RetryDelay := RetryDelay (config c) |};
       client := client c;
       apiKey := apiKey c |}.

Definition encodeImage (w : World) (c : MoondreamClient) (imagePath : string)
  : Result string :=
  match os_ReadFile w imagePath with
  | Err err => Err (ErrWrap "failed to read image file" (Some err))
  | Ok imageData =>
      Ok ("data:image/jpeg;base64," ++ base64.EncodeToString imageData)%string
  end.

(** What a run of [sendRequest] leaves: the error returned, the content
    of [*result] and what the world saw, in order. *)
Record outcome (R : Type) : Type := mkOutcome {
  out_err : option error;
  out_result : R;
  out_trace : list event
}.
Arguments mkOutcome {R} _ _ _.
Arguments out_err {R} _.
Arguments out_result {R} _.
Arguments out_trace {R} _.

(** How one turn of the retry loop ends, if it does. *)
Inductive control (R : Type) : Type :=
| Continue (lastErr : error) (result : R)     (* lastErr = ...; continue *)
| Return (err : option error) (result : R)    (* return ... *)
| NoReturn.                                   (* a call never returns *)
Arguments Continue {R} _ _.
Arguments Return {R} _ _.
Arguments NoReturn {R}.

(** [c.config.RetryDelay * time.Duration(attempt)] *)
Definition retryDelay (c : MoondreamClient) (attempt : Z) : Z :=
  wrap64 (RetryDelay (config c) * attempt).

(** The wait at the head of the loop body: none at the first attempt,
    then a [select] on the context and a timer. *)
Definition backoff (w : World) (c : MoondreamClient) (attempt : Z)
  : list event * option ctx_error :=
  if 0 <? attempt then
    match ctx_select w attempt (retryDelay c attempt) with
    | CtxDone e => ([EvCancelled (retryDelay c attempt)], Some e)
    | TimerFired => ([EvWait (retryDelay c attempt)], None)
    end
  else ([], None).

(** [var apiErr APIError] *)
Definition zeroAPIError : APIError :=
  {| StatusCode := 0; Message := EmptyString |}.

(** The [APIError] of a response with a status of 400 or more: the body
    unmarshalled into a fresh [APIError], or the status and the raw body
    when that fails. *)
Definition responseError (status : Z) (body : string) : APIError :=
  match json_Unmarshal body zeroAPIError with
  | (apiErr, None) => apiErr
  | (_, Some _) => {| StatusCode := status; Message := body |}
  end.

Section Executor.

Context {P R : Type} `{Marshaler P} `{Unmarshaler R}.

(** The loop body from [c.client.Do(req)] on. *)
Definition attemptRequest (w : World) (req : http.Request) (attempt : Z)
    (result : R) : control R :=
  match client_Do w attempt req with
  | DoError err =>
      Continue (ErrWrap "failed to send request" (Some err)) result
  | DoResponse status (BodyError err) =>
      Continue (ErrWrap "failed to read response body" (Some err)) result
  | DoNeverReturns => NoReturn
  | DoResponse status BodyNeverReturns => NoReturn
  | DoResponse status (BodyRead body) =>
      if 400 <=? status then
        let apiErr := responseError status body in
        if status <? 500 then Return (Some (ErrAPI apiErr)) result
        else Continue (ErrAPI apiErr) result
      else
        match json_Unmarshal body result with
        | (result', Some err) =>
            Continue (ErrWrap "failed to unmarshal response" (Some err)) result'
        | (result', None) => Return None result'
        end
  end.

(** [for attempt := 0; attempt <= c.config.MaxRetries; attempt++]:
    [fuel] bounds the number of tests of the loop condition. [None] is a
    run without outcome: the fuel ran out, or a call never returned. *)
Fixpoint retryLoop (fuel : nat) (w : World) (c : MoondreamClient)
    (req : http.Request) (attempt : Z) (lastErr : option error)
    (result : R) (trace : list event) : option (outcome R) :=
  match fuel with
  | O => None
  | S fuel' =>
      if attempt <=? MaxRetries (config c) then
        match backoff w c attempt with
        | (evs, Some e) =>
            Some (mkOutcome (Some (ErrContext e)) result (trace ++ evs))
        | (evs, None) =>
            match attemptRequest w req attempt result with
            | Continue err result' =>
                retryLoop fuel' w c req (wrap64 (attempt + 1)) (Some err)
                  result' (trace ++ evs ++ [EvDo req])
            | Return err result' =>
                Some (mkOutcome err result' (trace ++ evs ++ [EvDo req]))
            | NoReturn => None
            end
        end
      else
        Some (mkOutcome (Some (ErrWrap "max retries exceeded" lastErr))
                        result trace)
  end.

(** The request [sendRequest] builds before the loop. *)
Definition buildRequest (w : World) (c : MoondreamClient)
    (endpoint : string) (payload : P) : Result http.Request :=
  match json_Marshal payload with
  | Err err => Err (ErrWrap "failed to marshal payload" (Some err))
  | Ok jsonPayload =>
      match http_NewRequestWithContext w "POST"
              (BaseURL (config c) ++ endpoint)%string jsonPayload with
      | Err err => Err (ErrWrap "failed to create request" (Some err))
      | Ok req =>
          Ok (http.Header_Set "Content-Type" "application/json"
               (http.Header_Set "X-Moondream-Auth" (apiKey c) req))
      end
  end.

Definition sendRequest (fuel : nat) (w : World) (c : MoondreamClient)
    (endpoint : string) (payload : P) (result : R) : option (outcome R) :=
  match buildRequest w c endpoint payload with
  | Err err => Some (mkOutcome (Some err) result [])
  | Ok req => retryLoop fuel w c req 0 None result []
  end.

End Executor.

(** ** Reading a run *)

Definition is_attempt (e : event) : bool :=
  match e with
  | EvDo _ => true
  | _ => false
  end.

(** The number of requests handed to the transport. *)
Definition attempts (trace : list event) : Z :=
  Z.of_nat (length (List.filter is_attempt trace)).

(** What attempt [i] shows when it is made: the wait that precedes it,
    for every attempt but the first, then the request. *)
Definition attempt_events (c : MoondreamClient) (req : http.Request) (i : Z)
  : list event :=
  (if 0 <? i then [EvWait (retryDelay c i)] else []) ++ [EvDo req].

(** The attempts [from], [from + 1], ... ([n] of them), all made. *)
Fixpoint attempts_from (c : MoondreamClient) (req : http.Request)
    (n : nat) (from : Z) : list event :=
  match n with
  | O => []
  | S n' => attempt_events c req from ++ attempts_from c req n' (from + 1)
  end.

(** The state of the loop after [n] turns that all ended in [continue],
    [None] when one of them did not. *)
Fixpoint turns {R : Type} `{Unmarshaler R} (n : nat) (w : World)
    (c : MoondreamClient) (req : http.Request) (attempt : Z)
    (lastErr : option error) (result : R) (trace : list event)
  : option (Z * option error * R * list event) :=
  match n with
  | O => Some (attempt, lastErr, result, trace)
  | S n' =>
      if attempt <=? MaxRetries (config c) then
        match backoff w c attempt, attemptRequest w req attempt result with
        | (evs, None), Continue err result' =>
            turns n' w c req (wrap64 (attempt + 1)) (Some err) result'
              (trace ++ evs ++ [EvDo req])
        | _, _ => None
        end
      else None
  end.

(** The data URI prefix taken off, as the package's test does
    ([strings.HasPrefix] and a slice). *)
Fixpoint trimPrefix (prefix s : string) : option string :=
  match prefix, s with
  | EmptyString, _ => Some s
  | String p prefix', String c s' =>
      if Ascii.eqb p c then trimPrefix prefix' s' else None
  | String _ _, EmptyString => None
  end.

(** JSON texts below are written with ['] in the place of the double
    quote: [json_text] puts the double quotes back. *)
Definition json_text (s : string) : string :=
  string_of_list_ascii
    (map (fun c => if Ascii.eqb c "'" then "034"%char else c)
         (list_ascii_of_string s)).


(** ** Sample worlds *)

(** A file system with one file, the one of [TestEncodeImage]. *)
Definition test_files (path : string) : Result string :=
  if String.eqb path "test.jpg" then Ok "test image data"
  else Err (ErrLib "os" "no such file or directory").

(** A server that gives every request the same answer; the context is
    never done. *)
Definition server_world (status : Z) (body : string) : World :=
  {| os_ReadFile := test_files;
     http_NewRequest_error := fun _ _ => None;
     ctx_select := fun _ _ => TimerFired;
     client_Do := fun _ _ => DoResponse status (BodyRead body) |}.

(** The same server; the context is cancelled during the first wait. *)
Definition cancelled_world (status : Z) (body : string) : World :=
  {| os_ReadFile := test_files;
     http_NewRequest_error := fun _ _ => None;
     ctx_select := fun _ _ => CtxDone Canceled;
     client_Do := fun _ _ => DoResponse status (BodyRead body) |}.

Definition test_client : MoondreamClient :=
  NewMoondreamClient "test-api-key" [WithBaseURL "http://127.0.0.1:8080"].

Definition test_payload : CaptionRequest :=
  {| Image := "data:image/jpeg;base64,dGVzdCBpbWFnZSBkYXRh";
     Length := "normal" |}.

(** The request of [test_client] for [test_payload] on [/caption]. *)
Definition test_request : http.Request :=
  http.Header_Set "Content-Type" "application/json"
    (http.Header_Set "X-Moondream-Auth" "test-api-key"
       {| http.Method := "POST";
          http.URL := "http://127.0.0.1:8080/caption";
          http.Hdr := ∅;
          http.Body :=
            json_text "{'image_url':'data:image/jpeg;base64,dGVzdCBpbWFnZSBkYXRh','length':'normal'}" |}).

(** ** The operations *)

Record QueryRequest : Type := mkQueryRequest {
  QueryRequest_Image : string;   (* Image `json:"image_url"` *)
  Question : string              (* `json:"question"` *)
}.

Instance QueryRequest_Marshaler : Marshaler QueryRequest :=
  fun r =>
    Ok ("{" ++ json.quote "image_url" ++ ":"
            ++ json.quote (QueryRequest_Image r) ++ ","
            ++ json.quote "question" ++ ":" ++ json.quote (Question r)
            ++ "}")%string.

Record QueryResponse : Type := mkQueryResponse {
  Answer : string     (* `json:"answer"` *)
}.

Definition QueryResponse_assign (key : string) (v : json.value)
    (r : QueryResponse) : QueryResponse * option error :=
  if json.field_match "answer" key then
    let (a, err) := json.store_string v (Answer r) in
    ({| Answer := a |}, err)
  else (r, None).

Instance QueryResponse_Unmarshaler : Unmarshaler QueryResponse :=
  json.Unmarshal_struct "moondream.QueryResponse" QueryResponse_assign.

Record DetectRequest : Type := mkDetectRequest {
  DetectRequest_Image : string;  (* Image `json:"image_url"` *)
  DetectRequest_Object : string  (* Object `json:"object"` *)
}.

Instance DetectRequest_Marshaler : Marshaler DetectRequest :=
  fun r =>
    Ok ("{" ++ json.quote "image_url" ++ ":"
            ++ json.quote (DetectRequest_Image r) ++ ","
            ++ json.quote "object" ++ ":" ++ json.quote (DetectRequest_Object r)
            ++ "}")%string.

Record PointRequest : Type := mkPointRequest {
  PointRequest_Image : string;   (* Image `json:"image_url"` *)
  PointRequest_Object : string   (* Object `json:"object"` *)
}.

Instance PointRequest_Marshaler : Marshaler PointRequest :=
  fun r =>
    Ok ("{" ++ json.quote "image_url" ++ ":"
            ++ json.quote (PointRequest_Image r) ++ ","
            ++ json.quote "object" ++ ":" ++ json.quote (PointRequest_Object r)
            ++ "}")%string.

(** What an operation returns, with what the world saw of it. *)
Record returned (T : Type) : Type := mkReturned {
  ret_value : T;
  ret_err : option error;
  ret_trace : list event
}.
Arguments mkReturned {T} _ _ _.
Arguments ret_value {T} _.
Arguments ret_err {T} _.
Arguments ret_trace {T} _.

Definition Query (fuel : nat) (w : World) (c : MoondreamClient)
    (imagePath question : string) : option (returned string) :=
  match encodeImage w c imagePath with
  | Err err => Some (mkReturned EmptyString (Some err) [])
  | Ok encodedImage =>
      let req := {| QueryRequest_Image := encodedImage;
                    Question := question |} in
      match sendRequest fuel w c "/query" req {| Answer := EmptyString |} with
      | None => None
      | Some out =>
          match out_err out with
          | Some err => Some (mkReturned EmptyString (Some err) (out_trace out))
          | None =>
              Some (mkReturned (Answer (out_result out)) None (out_trace out))
          end
      end
  end.

Section Coordinates.

(** The values of the coordinate maps are [float64]s: their type and the
    way [Unmarshal] reads them are left open. A slice is an [option]:
    [None] is the [nil] slice. *)
Variable float64 : Type.

Record DetectResponse : Type := mkDetectResponse {
  BoundingBoxes : option (list (gmap string float64))   (* `json:"objects"` *)
}.

Record PointResponse : Type := mkPointResponse {
  Points : option (list (gmap string float64))          (* `json:"points"` *)
}.

Context `{Unmarshaler DetectResponse} `{Unmarshaler PointResponse}.

Definition Detect (fuel : nat) (w : World) (c : MoondreamClient)
    (imagePath object : string)
  : option (returned (option (list (gmap string float64)))) :=
  match encodeImage w c imagePath with
  | Err err => Some (mkReturned None (Some err) [])
  | Ok encodedImage =>
      let req := {| DetectRequest_Image := encodedImage;
                    DetectRequest_Object := object |} in
      match sendRequest fuel w c "/detect" req {| BoundingBoxes := None |} with
      | None => None
      | Some out =>
          match out_err out with
          | Some err => Some (mkReturned None (Some err) (out_trace out))
          | None =>
              Some (mkReturned (BoundingBoxes (out_result out)) None
                               (out_trace out))
          end
      end
  end.

Definition Point (fuel : nat) (w : World) (c : MoondreamClient)
    (imagePath object : string)
  : option (returned (option (list (gmap string float64)))) :=
  match encodeImage w c imagePath with
  | Err err => Some (mkReturned None (Some err) [])
  | Ok encodedImage =>
      let req := {| PointRequest_Image := encodedImage;
                    PointRequest_Object := object |} in
      match sendRequest fuel w c "/point" req {| Points := None |} with
      | None => None
      | Some out =>
          match out_err out with
          | Some err => Some (mkReturned None (Some err) (out_trace out))
          | None =>
              Some (mkReturned (Points (out_result out)) None (out_trace out))
          end
      end
  end.

End Coordinates.

(** ** The command line *)

(** The call [main] makes on the client. *)
Inductive invocation : Type :=
| CallCaption (imagePath length : string)
| CallQuery (imagePath question : string)
| CallDetect (imagePath object : string)
| CallPoint (imagePath object : string).

(** How [main] begins: it stops with [log.Fatal], or it builds the client
    and makes one call. *)
Inductive startup : Type :=
| Fatal (msg : string)
| Start (c : MoondreamClient) (call : invocation).

Definition newline : string := String "010" EmptyString.

Definition usage : string :=
  ("Usage: moondream <function> <image-path> [options]" ++ newline
   ++ "Functions: caption, query, detect, point" ++ newline
   ++ "Example: moondream caption image.jpg")%string.

(** [main] up to the call of the operation: [Args] is [os.Args] and
    [mdAPI] the value of the environment variable of that name. *)
Definition main_startup (Args : list string) (mdAPI : string) : startup :=
  if Z.of_nat (length Args) <? 3 then Fatal usage
  else if String.eqb mdAPI EmptyString
  then Fatal "Error: mdAPI environment variable not set"
  else
    let client := NewMoondreamClient mdAPI [WithTimeout (30 * Second)] in
    match Args with
    | _ :: function :: imagePath :: rest =>
        if String.eqb function "caption" then
          Start client (CallCaption imagePath "long")
        else if String.eqb function "query" then
          match rest with
          | [] => Fatal "Usage: moondream query <image-path> <question>"
          | question :: _ => Start client (CallQuery imagePath question)
          end
        else if String.eqb function "detect" then
          match rest with
          | [] => Fatal "Usage: moondream detect <image-path> <object>"
          | object :: _ => Start client (CallDetect imagePath object)
          end
        else if String.eqb function "point" then
          match rest with
          | [] => Fatal "Usage: moondream point <image-path> <object>"
          | object :: _ => Start client (CallPoint imagePath object)
          end
        else Fatal ("Unknown function: " ++ function)%string
    | _ => Fatal usage
    end.

(** ** More ways to read a run *)

(** The time spent in waits that ran to their end. *)
Fixpoint waited (trace : list event) : Z :=
  match trace with
  | [] => 0
  | EvWait d :: rest => d + waited rest
  | _ :: rest => waited rest
  end.

(** The error the loop keeps when the answer of the transport is one it
    retries whatever the expected result: no answer, a body that cannot
    be read, a status of 500 or more. *)
Definition transient_error (o : do_outcome) : option error :=
  match o with
  | DoError err => Some (ErrWrap "failed to send request" (Some err))
  | DoResponse _ (BodyError err) =>
      Some (ErrWrap "failed to read response body" (Some err))
  | DoResponse status (BodyRead body) =>
      if 500 <=? status then Some (ErrAPI (responseError status body))
      else None
  | DoResponse _ BodyNeverReturns => None
  | DoNeverReturns => None
  end.

(** Whether a call of the transport, and the read of the body of the
    response it gives, come back. *)
Definition comes_back (o : do_outcome) : bool :=
  match o with
  | DoNeverReturns => false
  | DoResponse _ BodyNeverReturns => false
  | _ => true
  end.

(** An option of the package. *)
Inductive package_option : ClientOption -> Prop :=
| option_WithTimeout (timeout : Z) : package_option (WithTimeout timeout)
| option_WithBaseURL (baseURL : string) : package_option (WithBaseURL baseURL).

(** What holds of a client whatever options of the package built it. *)
Definition well_built (key : string) (c : MoondreamClient) : Prop :=
  apiKey c = key
  /\ MaxRetries (config c) = 3
  /\ RetryDelay (config c) = 1000000000
  /\ http.Timeout (client c) = Timeout (config c).

(** A byte a JSON string literal holds as it is. *)
Definition plain (c : ascii) : bool :=
  (32 <=? byte_to_Z c) && (byte_to_Z c <? 128)
  && negb (Ascii.eqb c "034") && negb (Ascii.eqb c "\")
  && negb (Ascii.eqb c "&") && negb (Ascii.eqb c "<")
  && negb (Ascii.eqb c ">").

(** ** More sample worlds *)

(** No server: every request fails in the transport. *)
Definition unreachable_world : World :=
  {| os_ReadFile := test_files;
     http_NewRequest_error := fun _ _ => None;
     ctx_select := fun _ _ => TimerFired;
     client_Do := fun _ _ => DoError (ErrLib "http" "connection refused") |}.

(** A server that is overloaded at the first attempt and answers the
    second. *)
Definition flaky_world (body : string) : World :=
  {| os_ReadFile := test_files;
     http_NewRequest_error := fun _ _ => None;
     ctx_select := fun _ _ => TimerFired;
     client_Do := fun attempt _ =>
       if attempt =? 0 then DoResponse 503 (BodyRead "busy")
       else DoResponse 200 (BodyRead body) |}.

(** A URL that [http.NewRequestWithContext] refuses. *)
Definition bad_url_world : World :=
  {| os_ReadFile := test_files;
     http_NewRequest_error := fun _ _ => Some (ErrLib "url" "invalid URL");
     ctx_select := fun _ _ => TimerFired;
     client_Do := fun _ _ => DoError (ErrLib "http" "connection refused") |}.

(** A server that never answers. *)
Definition silent_world : World :=
  {| os_ReadFile := test_files;
     http_NewRequest_error := fun _ _ => None;
     ctx_select := fun _ _ => TimerFired;
     client_Do := fun _ _ => DoNeverReturns |}.

(** A client whose number of retries is negative. *)
Definition no_attempt_client : MoondreamClient :=
  {| config := {| Timeout := defaultTimeout; BaseURL := defaultBaseURL;
                  MaxRetries := -1; RetryDelay := defaultRetryDelay |};
     client := {| http.Timeout := defaultTimeout |};
     apiKey := "test-api-key" |}.


(** A decoder of coordinate answers that reads nothing, for runs in which
    no answer is read. *)
Definition no_coordinates {T : Type} : Unmarshaler T :=
  fun _ r => (r, Some (ErrLib "json" "not read")).

(** ** Proof tools for the bit arithmetic *)

Ltac pow2_consts :=
  change (2 ^ 18) with 262144 in *; change (2 ^ 16) with 65536 in *;
  change (2 ^ 12) with 4096 in *; change (2 ^ 8) with 256 in *;
  change (2 ^ 6) with 64 in *.

Ltac divmod := pow2_consts; Z.div_mod_to_equations; lia.

Ltac shifts_to_arith :=
  repeat first
    [ rewrite Z.shiftr_div_pow2 by lia
    | rewrite Z.shiftl_mul_pow2 by lia
    | rewrite Z.shiftr_0_r
    | match goal with
      | |- context [Z.land ?a 63] =>
          change (Z.land a 63) with (Z.land a (Z.ones 6));
          rewrite (Z.land_ones a 6) by lia
      | |- context [Z.land ?a 255] =>
          change (Z.land a 255) with (Z.land a (Z.ones 8));
          rewrite (Z.land_ones a 8) by lia
      end ];
  pow2_consts.

(** * Properties *)

(** ** Bytes and bit arithmetic *)

Lemma byte_to_Z_range (b : ascii) : 0 <= byte_to_Z b < 256.
Proof.
  unfold byte_to_Z. pose proof (N_ascii_bounded b) as Hb. lia.
Qed.

Lemma Z_to_byte_eq (b : ascii) (z : Z) :
  Z.land z 255 = byte_to_Z b -> Z_to_byte z = b.
Proof.
  intros E. unfold Z_to_byte. rewrite E. unfold byte_to_Z.
  rewrite N2Z.id. apply ascii_N_embedding.
Qed.

(** An [or] of two numbers without a common bit is their sum. *)
Lemma lor_add_disjoint (a lo k : Z) :
  0 <= k -> a mod 2 ^ k = 0 -> 0 <= lo < 2 ^ k -> Z.lor a lo = a + lo.
Proof.
  intros Hk Ha Hlo.
  assert (E : Z.land a lo = 0).
  { apply Z.bits_inj'. intros n Hn.
    rewrite Z.land_spec, Z.bits_0.
    destruct (Z.lt_ge_cases n k) as [Hlt | Hge].
    - rewrite <- (Z.mod_pow2_bits_low a k n) by lia.
      rewrite Ha, Z.bits_0. reflexivity.
    - rewrite <- (Z.mod_small lo (2 ^ k)) by assumption.
      rewrite Z.mod_pow2_bits_high by lia. apply andb_false_r. }
  pose proof (Z.add_lor_land a lo) as Hadd. rewrite E in Hadd. lia.
Qed.

Lemma sextet_range (x : Z) : 0 <= Z.land x 63 < 64.
Proof. shifts_to_arith. divmod. Qed.

(** The 24 bits of three bytes, as [Encode] packs them. *)
Lemma pack3_value (b0 b1 b2 : Z) :
  0 <= b0 < 256 -> 0 <= b1 < 256 -> 0 <= b2 < 256 ->
  Z.lor (Z.lor (Z.shiftl b0 16) (Z.shiftl b1 8)) b2
  = b0 * 65536 + b1 * 256 + b2.
Proof.
  intros H0 H1 H2. shifts_to_arith.
  rewrite (lor_add_disjoint (b0 * 65536) _ 16) by divmod.
  rewrite (lor_add_disjoint (b0 * 65536 + _) _ 8) by divmod.
  reflexivity.
Qed.

(** Four 6-bit digits cut from a 24-bit value put it together again. *)
Lemma quantum_of_sextets (val : Z) :
  0 <= val < 16777216 ->
  base64.quantum (Z.land (Z.shiftr val 18) 63) (Z.land (Z.shiftr val 12) 63)
                 (Z.land (Z.shiftr val 6) 63) (Z.land val 63) = val.
Proof.
  intros Hval. unfold base64.quantum. shifts_to_arith.
  rewrite (lor_add_disjoint (_ * 262144) _ 18) by divmod.
  rewrite (lor_add_disjoint (_ + _) _ 12) by divmod.
  rewrite (lor_add_disjoint (_ + _) _ 6) by divmod.
  divmod.
Qed.

Lemma quantum_low_zero (d0 d1 d2 : Z) :
  0 <= d0 < 64 -> 0 <= d1 < 64 -> 0 <= d2 < 64 ->
  base64.quantum d0 d1 d2 0 = d0 * 262144 + d1 * 4096 + d2 * 64.
Proof.
  intros H0 H1 H2. unfold base64.quantum. rewrite Z.lor_0_r. shifts_to_arith.
  rewrite (lor_add_disjoint (_ * 262144) _ 18) by divmod.
  rewrite (lor_add_disjoint (_ + _) _ 12) by divmod.
  reflexivity.
Qed.

(** ** The round trip of base64 *)

Lemma decodeMap_encode (v : Z) :
  0 <= v < 64 -> base64.decodeMap (base64.encode v) = v.
Proof.
  intros Hv. rewrite <- (Z2Nat.id v) by lia.
  assert (Hn : (Z.to_nat v < 64)%nat) by lia.
  clear Hv. generalize dependent (Z.to_nat v). clear v. intros n Hn.
  do 64 (destruct n as [| n]; [reflexivity |]). lia.
Qed.

(** A digit of the alphabet extends the quantum being read. *)
Lemma decode_digit (v : Z) (rest : string) (dbuf : list Z) :
  0 <= v < 64 ->
  base64.decode (String (base64.encode v) rest) dbuf =
  match dbuf with
  | [d0; d1; d2] =>
      let val := base64.quantum d0 d1 d2 v in
      match base64.decode rest [] with
      | Ok tl =>
          Ok (String (Z_to_byte (Z.shiftr val 16))
               (String (Z_to_byte (Z.shiftr val 8))
                 (String (Z_to_byte val) tl)))
      | Err e => Err e
      end
  | _ => base64.decode rest (dbuf ++ [v])
  end.
Proof.
  intros Hv. cbn [base64.decode]. rewrite (decodeMap_encode v Hv).
  destruct (Z.eqb_spec v 255) as [E | _]; [lia | reflexivity].
Qed.

Lemma decode_group3 (b0 b1 b2 : ascii) (rest : string) :
  base64.decode
    (base64.EncodeToString (String b0 (String b1 (String b2 rest)))) [] =
  match base64.decode (base64.EncodeToString rest) [] with
  | Ok tl => Ok (String b0 (String b1 (String b2 tl)))
  | Err e => Err e
  end.
Proof.
  pose proof (byte_to_Z_range b0) as H0.
  pose proof (byte_to_Z_range b1) as H1.
  pose proof (byte_to_Z_range b2) as H2.
  cbn [base64.EncodeToString]. cbv zeta.
  rewrite (pack3_value _ _ _ H0 H1 H2).
  set (val := byte_to_Z b0 * 65536 + byte_to_Z b1 * 256 + byte_to_Z b2).
  assert (Hval : 0 <= val < 16777216) by (unfold val; lia).
  rewrite !decode_digit by apply sextet_range.
  cbn [app]. cbv zeta. rewrite (quantum_of_sextets val Hval).
  destruct (base64.decode (base64.EncodeToString rest) []) as [tl | e];
    [| reflexivity].
  rewrite (Z_to_byte_eq b0), (Z_to_byte_eq b1), (Z_to_byte_eq b2);
    [reflexivity | | |]; unfold val; shifts_to_arith; divmod.
Qed.

Lemma decode_group2 (b0 b1 : ascii) :
  base64.decode (base64.EncodeToString (String b0 (String b1 EmptyString))) []
  = Ok (String b0 (String b1 EmptyString)).
Proof.
  pose proof (byte_to_Z_range b0) as H0.
  pose proof (byte_to_Z_range b1) as H1.
  cbn [base64.EncodeToString]. cbv zeta.
  rewrite <- (Z.lor_0_r (Z.lor _ _)).
  assert (Hz : (0 <= 0 < 256)) by lia.
  rewrite (pack3_value _ _ _ H0 H1 Hz).
  set (val := byte_to_Z b0 * 65536 + byte_to_Z b1 * 256 + 0).
  rewrite !decode_digit by apply sextet_range.
  cbn. rewrite quantum_low_zero by apply sextet_range.
  rewrite (Z_to_byte_eq b0), (Z_to_byte_eq b1);
    [reflexivity | |]; unfold val; shifts_to_arith; divmod.
Qed.

Lemma decode_group1 (b0 : ascii) :
  base64.decode (base64.EncodeToString (String b0 EmptyString)) []
  = Ok (String b0 EmptyString).
Proof.
  pose proof (byte_to_Z_range b0) as H0.
  cbn [base64.EncodeToString]. cbv zeta.
  rewrite !decode_digit by apply sextet_range.
  cbn. rewrite quantum_low_zero by (apply sextet_range || lia).
  rewrite (Z_to_byte_eq b0); [reflexivity |].
  shifts_to_arith. divmod.
Qed.

(** Induction on a byte sequence three bytes at a time. *)
Lemma string_by_triples (Q : string -> Prop) :
  Q EmptyString ->
  (forall b0, Q (String b0 EmptyString)) ->
  (forall b0 b1, Q (String b0 (String b1 EmptyString))) ->
  (forall b0 b1 b2 rest, Q rest -> Q (String b0 (String b1 (String b2 rest)))) ->
  forall s, Q s.
Proof.
  intros Q0 Q1 Q2 Q3.
  assert (All : forall s, Q s /\ (forall a, Q (String a s))
                          /\ (forall a b, Q (String a (String b s)))).
  { induction s as [| c s (IH0 & IH1 & IH2)].
    - auto.
    - repeat split; auto. }
  intros s. apply All.
Qed.

Lemma DecodeString_EncodeToString (src : string) :
  base64.DecodeString (base64.EncodeToString src) = Ok src.
Proof.
  unfold base64.DecodeString.
  induction src as [| b0 | b0 b1 | b0 b1 b2 rest IH] using string_by_triples.
  - reflexivity.
  - apply decode_group1.
  - apply decode_group2.
  - rewrite decode_group3, IH. reflexivity.
Qed.

Lemma trimPrefix_app (prefix s : string) :
  trimPrefix prefix (prefix ++ s)%string = Some s.
Proof.
  induction prefix as [| p prefix IH]; [reflexivity |].
  change (String p prefix ++ s)%string with (String p (prefix ++ s)%string).
  cbn [trimPrefix]. rewrite Ascii.eqb_refl. exact IH.
Qed.

(** ** The image encoder *)

(** C5. For every readable file path the encoder returns the data URI
    [data:image/jpeg;base64,] followed by the base64 encoding of the
    file's bytes; taking the prefix off and decoding the rest with
    [base64.StdEncoding] gives the file's bytes back. *)
Theorem encodeImage_round_trip
    (w : World) (c : MoondreamClient) (imagePath imageData : string) :
  os_ReadFile w imagePath = Ok imageData ->
  exists payload : string,
    encodeImage w c imagePath = Ok ("data:image/jpeg;base64," ++ payload)%string
    /\ payload = base64.EncodeToString imageData
    /\ trimPrefix "data:image/jpeg;base64,"
         ("data:image/jpeg;base64," ++ payload)%string = Some payload
    /\ base64.DecodeString payload = Ok imageData.
Proof.
  intros Hread. exists (base64.EncodeToString imageData).
  unfold encodeImage. rewrite Hread.
  split; [reflexivity |]. split; [reflexivity |]. split.
  - apply trimPrefix_app.
  - apply DecodeString_EncodeToString.
Qed.

Lemma encodeImage_round_trip_witness :
  exists payload : string,
    encodeImage (server_world 200 "{}") (NewMoondreamClient "test-api-key" []) "test.jpg"
      = Ok ("data:image/jpeg;base64," ++ payload)%string
    /\ payload = base64.EncodeToString "test image data"
    /\ trimPrefix "data:image/jpeg;base64,"
         ("data:image/jpeg;base64," ++ payload)%string = Some payload
    /\ base64.DecodeString payload = Ok "test image data".
Proof.
  apply (encodeImage_round_trip (server_world 200 "{}")
           (NewMoondreamClient "test-api-key" []) "test.jpg" "test image data").
  reflexivity.
Defined.

(** ** Construction *)

(** C8. For every API key, a client constructed without options has the
    default configuration: a timeout of 30 seconds, the base URL
    https://api.moondream.ai/v1, 3 retries and a retry delay of 1 second
    (durations are nanoseconds); the transport has the same timeout. *)
Theorem NewMoondreamClient_defaults (key : string) :
  config (NewMoondreamClient key []) =
    {| Timeout := 30 * 1000000000;
       BaseURL := "https://api.moondream.ai/v1";
       MaxRetries := 3;
       RetryDelay := 1 * 1000000000 |}
  /\ http.Timeout (client (NewMoondreamClient key [])) = 30 * 1000000000
  /\ apiKey (NewMoondreamClient key []) = key.
Proof. repeat split. Qed.

Lemma NewMoondreamClient_snoc (key : string) (opts : list ClientOption)
    (opt : ClientOption) :
  NewMoondreamClient key (opts ++ [opt]) = opt (NewMoondreamClient key opts).
Proof. unfold NewMoondreamClient. rewrite fold_left_app. reflexivity. Qed.

(** C10. [WithBaseURL] changes the [BaseURL] field only: the timeout, the
    number of retries, the retry delay, the API key and the transport
    (hence its timeout) are those of the client it is applied to, also
    when it is the last option of a construction. *)
Theorem WithBaseURL_frame (baseURL : string) (c : MoondreamClient) :
  BaseURL (config (WithBaseURL baseURL c)) = baseURL
  /\ Timeout (config (WithBaseURL baseURL c)) = Timeout (config c)
  /\ MaxRetries (config (WithBaseURL baseURL c)) = MaxRetries (config c)
  /\ RetryDelay (config (WithBaseURL baseURL c)) = RetryDelay (config c)
  /\ apiKey (WithBaseURL baseURL c) = apiKey c
  /\ client (WithBaseURL baseURL c) = client c
  /\ http.Timeout (client (WithBaseURL baseURL c)) = http.Timeout (client c)
  /\ forall key opts,
       NewMoondreamClient key (opts ++ [WithBaseURL baseURL])
       = WithBaseURL baseURL (NewMoondreamClient key opts).
Proof.
  repeat split. intros key opts. apply NewMoondreamClient_snoc.
Qed.

(** ** The retry loop *)

Lemma wrap64_in_range (z : Z) : in_int64 z -> wrap64 z = z.
Proof.
  unfold in_int64, min_int64, max_int64, wrap64. intros Hz.
  rewrite Z.mod_small; lia.
Qed.

Lemma wrap64_range (z : Z) : in_int64 (wrap64 z).
Proof.
  unfold in_int64, min_int64, max_int64, wrap64.
  pose proof (Z.mod_pos_bound (z + 2 ^ 63) (2 ^ 64)) as Hmod. lia.
Qed.

Lemma attempts_app (t1 t2 : list event) :
  attempts (t1 ++ t2) = attempts t1 + attempts t2.
Proof.
  unfold attempts. rewrite List.filter_app, List.length_app. lia.
Qed.

Lemma attempts_attempt_events (c : MoondreamClient) (req : http.Request) (i : Z) :
  attempts (attempt_events c req i) = 1.
Proof. unfold attempt_events. destruct (0 <? i); reflexivity. Qed.

Lemma attempts_attempts_from (c : MoondreamClient) (req : http.Request)
    (n : nat) (from : Z) :
  attempts (attempts_from c req n from) = Z.of_nat n.
Proof.
  revert from. induction n as [| n IH]; intros from; [reflexivity |].
  cbn [attempts_from]. rewrite attempts_app, attempts_attempt_events, IH. lia.
Qed.

(** The wait of an attempt whose [select] ends with the timer. *)
Lemma backoff_timer (w : World) (c : MoondreamClient) (i : Z) :
  (0 < i -> ctx_select w i (retryDelay c i) = TimerFired) ->
  backoff w c i = (if 0 <? i then [EvWait (retryDelay c i)] else [], None).
Proof.
  intros Hsel. unfold backoff.
  destruct (Z.ltb_spec 0 i) as [Hpos | _]; [| reflexivity].
  rewrite (Hsel Hpos). reflexivity.
Qed.

Section RetryLoop.

Context {R : Type} `{Unmarshaler R}.
Variables (w : World) (c : MoondreamClient) (req : http.Request).

(** A run that starts with [n] turns ending in [continue] goes on from
    the state they leave. *)
Lemma retryLoop_turns (n fuel : nat) (a a' : Z) (l l' : option error)
    (r r' : R) (tr tr' : list event) :
  turns n w c req a l r tr = Some (a', l', r', tr') ->
  retryLoop (n + fuel) w c req a l r tr = retryLoop fuel w c req a' l' r' tr'.
Proof.
  revert a l r tr. induction n as [| n IH]; intros a l r tr Hturns.
  - cbn in Hturns. injection Hturns as -> -> -> ->. reflexivity.
  - cbn [turns] in Hturns. cbn [Nat.add retryLoop].
    destruct (a <=? MaxRetries (config c)); [| discriminate].
    destruct (backoff w c a) as [evs [e |]]; [discriminate |].
  destruct (attemptRequest w req a r) as [err r1 | err r1 |];
    [| discriminate | discriminate].
  apply IH. exact Hturns.
Qed.

(** Past the last attempt the loop ends with the error kept last. *)
Lemma retryLoop_exhausted (fuel : nat) (a : Z) (l : option error) (r : R)
    (tr : list event) :
  MaxRetries (config c) < a ->
  retryLoop (S fuel) w c req a l r tr
  = Some (mkOutcome (Some (ErrWrap "max retries exceeded" l)) r tr).
Proof.
  intros Ha. cbn [retryLoop].
  destruct (Z.leb_spec a (MaxRetries (config c))); [lia | reflexivity].
Qed.

(** A turn that ends in [return]. *)
Lemma retryLoop_return (fuel : nat) (a : Z) (l err : option error)
    (r r' : R) (tr evs : list event) :
  a <= MaxRetries (config c) ->
  backoff w c a = (evs, None) ->
  attemptRequest w req a r = Return err r' ->
  retryLoop (S fuel) w c req a l r tr
  = Some (mkOutcome err r' (tr ++ evs ++ [EvDo req])).
Proof.
  intros Ha Hwait Hdo. cbn [retryLoop].
  destruct (Z.leb_spec a (MaxRetries (config c))); [| lia].
  rewrite Hwait, Hdo. reflexivity.
Qed.

(** A turn that ends in [continue]: the error is kept and the next
    attempt is due. *)
Lemma retryLoop_continue (fuel : nat) (a : Z) (l : option error) (err : error)
    (r r' : R) (tr evs : list event) :
  a <= MaxRetries (config c) ->
  backoff w c a = (evs, None) ->
  attemptRequest w req a r = Continue err r' ->
  retryLoop (S fuel) w c req a l r tr
  = retryLoop fuel w c req (wrap64 (a + 1)) (Some err) r'
      (tr ++ evs ++ [EvDo req]).
Proof.
  intros Ha Hwait Hdo. cbn [retryLoop].
  destruct (Z.leb_spec a (MaxRetries (config c))); [| lia].
  rewrite Hwait, Hdo. reflexivity.
Qed.

(** A wait that the context ends. *)
Lemma retryLoop_cancelled (fuel : nat) (a : Z) (l : option error)
    (e : ctx_error) (r : R) (tr : list event) :
  0 < a <= MaxRetries (config c) ->
  ctx_select w a (retryDelay c a) = CtxDone e ->
  retryLoop (S fuel) w c req a l r tr
  = Some (mkOutcome (Some (ErrContext e)) r
            (tr ++ [EvCancelled (retryDelay c a)])).
Proof.
  intros [Hpos Ha] Hsel. cbn [retryLoop]. unfold backoff.
  destruct (Z.leb_spec a (MaxRetries (config c))); [| lia].
  destruct (Z.ltb_spec 0 a); [| lia].
  rewrite Hsel. reflexivity.
Qed.

(** When every attempt from [a] on ends in [continue], all of them are
    made. [Q i e] is what is known of the error that attempt [i] leaves
    and [Inv] of the content of the result. *)
Lemma turns_all_continue (Q : Z -> error -> Prop) (Inv : R -> Prop) :
  MaxRetries (config c) < max_int64 ->
  (forall i, 0 < i <= MaxRetries (config c) ->
             ctx_select w i (retryDelay c i) = TimerFired) ->
  (forall i r, 0 <= i <= MaxRetries (config c) -> Inv r ->
     exists e r', attemptRequest w req i r = Continue e r'
                  /\ Q i e /\ Inv r') ->
  forall (n : nat) (a : Z) (l : option error) (r : R) (tr : list event),
    0 <= a -> Z.of_nat n = MaxRetries (config c) + 1 - a -> Inv r ->
    exists l' r',
      turns n w c req a l r tr
      = Some (MaxRetries (config c) + 1, l', r',
              tr ++ attempts_from c req n a)
      /\ Inv r'
      /\ ((n = 0%nat /\ l' = l) \/
          (exists e, l' = Some e /\ Q (MaxRetries (config c)) e)).
Proof.
  intros Hmax Hsel Hdo.
  induction n as [| n IH]; intros a l r tr Ha Hn Hinv.
  - exists l, r. cbn [turns attempts_from]. rewrite app_nil_r.
    replace a with (MaxRetries (config c) + 1) by lia. auto.
  - assert (Hle : a <= MaxRetries (config c)) by lia.
    destruct (Hdo a r (conj Ha Hle) Hinv) as (e & r1 & Hstep & HQ & Hinv1).
    cbn [turns attempts_from].
    destruct (Z.leb_spec a (MaxRetries (config c))); [| lia].
    rewrite (backoff_timer w c a) by (intros; apply Hsel; lia).
    rewrite Hstep.
    rewrite wrap64_in_range
      by (unfold in_int64, min_int64, max_int64 in *; lia).
    destruct (IH (a + 1) (Some e) r1
                (tr ++ (if 0 <? a then [EvWait (retryDelay c a)] else [])
                    ++ [EvDo req]))
      as (l' & r' & Hturns & Hinv' & Hlast); [lia | lia | exact Hinv1 |].
    exists l', r'. split; [| split; [exact Hinv' |]].
    + rewrite Hturns. unfold attempt_events.
      rewrite <- !app_assoc. reflexivity.
    + right. destruct Hlast as [[Hn0 ->] | Hlast]; [| exact Hlast].
      exists e. split; [reflexivity |].
      replace (MaxRetries (config c)) with a by lia. exact HQ.
Qed.

(** The one number of retries the theorems below leave out: with
    [MaxRetries] the largest [int] the test [attempt <= MaxRetries] holds
    for every [int], the counter wraps around, and a run whose attempts
    all end in [continue] never leaves the loop. *)
Lemma retryLoop_max_int64_no_exit (fuel : nat) (a : Z) (l : option error)
    (r : R) (tr : list event) :
  MaxRetries (config c) = max_int64 ->
  in_int64 a ->
  (forall i, 0 < i -> ctx_select w i (retryDelay c i) = TimerFired) ->
  (forall i r, exists e r', attemptRequest w req i r = Continue e r') ->
  retryLoop fuel w c req a l r tr = None.
Proof.
  intros Hmax Ha Hsel Hdo. revert a l r tr Ha.
  induction fuel as [| fuel IH]; intros a l r tr Ha; [reflexivity |].
  destruct (Hdo a r) as (e & r1 & Hstep).
  rewrite (retryLoop_continue fuel a l e r r1 tr
             (if 0 <? a then [EvWait (retryDelay c a)] else [])).
  - apply IH. apply wrap64_range.
  - rewrite Hmax. apply Ha.
  - apply backoff_timer. apply Hsel.
  - exact Hstep.
Qed.

End RetryLoop.

(** ** The error of a response *)

Lemma responseError_unmarshalled (status : Z) (body : string) (e : APIError) :
  json_Unmarshal body zeroAPIError = (e, None) ->
  responseError status body = e.
Proof. unfold responseError, zeroAPIError. intros ->. reflexivity. Qed.

Lemma responseError_synthesized (status : Z) (body : string) (e : APIError)
    (err : error) :
  json_Unmarshal body zeroAPIError = (e, Some err) ->
  responseError status body = {| StatusCode := status; Message := body |}.
Proof. unfold responseError, zeroAPIError. intros ->. reflexivity. Qed.

Lemma responseError_not_json (status : Z) (body : string) :
  json.parse body = None ->
  responseError status body = {| StatusCode := status; Message := body |}.
Proof.
  intros Hparse.
  apply (responseError_synthesized status body zeroAPIError json.SyntaxError).
  unfold json_Unmarshal, APIError_Unmarshaler, json.Unmarshal_struct.
  rewrite Hparse. reflexivity.
Qed.




(** ** The request executor *)

Section Requests.

Context {P R : Type} `{Marshaler P} `{Unmarshaler R}.

(** The loop hands no request to the transport but [req]. *)
Lemma retryLoop_requests (fuel : nat) (w : World) (c : MoondreamClient)
    (req : http.Request) (a : Z) (l : option error) (r : R)
    (tr : list event) (out : outcome R) :
  retryLoop fuel w c req a l r tr = Some out ->
  forall r', In (EvDo r') (out_trace out) -> In (EvDo r') tr \/ r' = req.
Proof.
  revert a l r tr. induction fuel as [| fuel IH]; intros a l r tr Hrun r' Hin;
    [discriminate |].
  cbn [retryLoop] in Hrun.
  destruct (a <=? MaxRetries (config c)).
  - assert (Hevs : forall evs, In (EvDo r') evs ->
              fst (backoff w c a) = evs -> False).
    { intros evs Hin' Heq. unfold backoff in Heq.
      destruct (0 <? a); [destruct (ctx_select w a (retryDelay c a)) |];
        cbn in Heq; subst evs; cbn in Hin'; intuition discriminate. }
    destruct (backoff w c a) as [evs [e |]] eqn:Hwait.
    + injection Hrun as <-. cbn in Hin. apply in_app_or in Hin.
      destruct Hin as [Hin | Hin]; [auto | exfalso; eauto].
    + assert (Hstep : In (EvDo r') (tr ++ evs ++ [EvDo req]) ->
                      In (EvDo r') tr \/ r' = req).
      { intros Hin'. apply in_app_or in Hin'.
        destruct Hin' as [Hin' | Hin']; [auto |].
        apply in_app_or in Hin'. destruct Hin' as [Hin' | Hin'].
        - exfalso. eauto.
        - cbn in Hin'. destruct Hin' as [Heq | []]. right. congruence. }
      destruct (attemptRequest w req a r) as [err r1 | err r1 |].
      * destruct (IH _ _ _ _ Hrun r' Hin) as [Hin' | ->]; auto.
      * injection Hrun as <-. cbn in Hin. auto.
      * discriminate.
  - injection Hrun as <-. cbn in Hin. auto.
Qed.

(** A run only adds to the trace it starts from. *)
Lemma retryLoop_trace_extends (fuel : nat) (w : World) (c : MoondreamClient)
    (req : http.Request) (a : Z) (l : option error) (r : R)
    (tr : list event) (out : outcome R) :
  retryLoop fuel w c req a l r tr = Some out ->
  exists rest, out_trace out = tr ++ rest.
Proof.
  revert a l r tr. induction fuel as [| fuel IH]; intros a l r tr Hrun;
    [discriminate |].
  cbn [retryLoop] in Hrun.
  destruct (a <=? MaxRetries (config c)).
  - destruct (backoff w c a) as [evs [e |]].
    + injection Hrun as <-. exists evs. reflexivity.
    + destruct (attemptRequest w req a r) as [err r1 | err r1 |].
      * destruct (IH _ _ _ _ Hrun) as [rest Hrest].
        exists (evs ++ [EvDo req] ++ rest). rewrite Hrest.
        rewrite <- !app_assoc. reflexivity.
      * injection Hrun as <-. exists (evs ++ [EvDo req]). reflexivity.
      * discriminate.
  - injection Hrun as <-. exists []. cbn [out_trace]. rewrite app_nil_r.
    reflexivity.
Qed.

(** When an attempt is allowed, the first thing a run does is to hand
    the request it built to the transport. *)
Lemma sendRequest_first_attempt (w : World) (c : MoondreamClient)
    (endpoint : string) (payload : P) (result : R) (req : http.Request)
    (fuel : nat) (out : outcome R) :
  buildRequest w c endpoint payload = Ok req ->
  0 <= MaxRetries (config c) ->
  sendRequest fuel w c endpoint payload result = Some out ->
  exists rest, out_trace out = EvDo req :: rest.
Proof.
  intros Hbuild Hnonneg Hrun. unfold sendRequest in Hrun.
  rewrite Hbuild in Hrun. destruct fuel as [| fuel]; [discriminate |].
  cbn [retryLoop] in Hrun.
  destruct (Z.leb_spec 0 (MaxRetries (config c))); [| lia].
  change (backoff w c 0) with (@nil event, @None ctx_error) in Hrun.
  destruct (attemptRequest w req 0 result) as [err r1 | err r1 |].
  - destruct (retryLoop_trace_extends _ _ _ _ _ _ _ _ _ Hrun) as [rest Hrest].
    exists rest. exact Hrest.
  - injection Hrun as <-. exists []. reflexivity.
  - discriminate.
Qed.

(** Every request a run hands to the transport is the one it built. *)
Lemma sendRequest_hands_over_built (w : World) (c : MoondreamClient)
    (endpoint : string) (payload : P) (result : R) (req : http.Request)
    (fuel : nat) (out : outcome R) (r : http.Request) :
  buildRequest w c endpoint payload = Ok req ->
  sendRequest fuel w c endpoint payload result = Some out ->
  In (EvDo r) (out_trace out) ->
  http.Method r = http.Method req /\ http.URL r = http.URL req
  /\ http.Hdr r = http.Hdr req.
Proof.
  intros Hbuild Hrun Hin. unfold sendRequest in Hrun. rewrite Hbuild in Hrun.
  destruct (retryLoop_requests _ _ _ _ _ _ _ _ _ Hrun r Hin) as [[] | ->].
  repeat split.
Qed.

(** The outcome of an attempt that gets an answer of status 400 or
    more. *)
Lemma attemptRequest_error_status (w : World) (req : http.Request) (a : Z)
    (r : R) (status : Z) (body : string) :
  client_Do w a req = DoResponse status (BodyRead body) ->
  400 <= status ->
  attemptRequest w req a r =
    if status <? 500
    then Return (Some (ErrAPI (responseError status body))) r
    else Continue (ErrAPI (responseError status body)) r.
Proof.
  intros Hdo Hst. unfold attemptRequest. rewrite Hdo.
  destruct (Z.leb_spec 400 status); [reflexivity | lia].
Qed.

(** C1, with the name of the header the code and its tests use. For
    every invocation whose payload marshals and whose URL
    [http.NewRequestWithContext] accepts, the executor builds a POST to
    the base URL followed by the endpoint, with the header
    [X-Moondream-Auth] set to the API key of the client, [Content-Type]
    set to [application/json] and the marshalled payload as body. This
    is the request the executor works with: when an attempt is allowed,
    its first act is to hand this request to the transport, and whatever
    it hands over is a POST to that URL with these two headers. *)
Theorem sendRequest_builds_request
    (w : World) (c : MoondreamClient) (endpoint : string) (payload : P)
    (jsonPayload : string) :
  json_Marshal payload = Ok jsonPayload ->
  http_NewRequest_error w "POST" (BaseURL (config c) ++ endpoint)%string = None ->
  exists req : http.Request,
    buildRequest w c endpoint payload = Ok req
    /\ http.Method req = "POST"
    /\ http.URL req = (BaseURL (config c) ++ endpoint)%string
    /\ http.Hdr req !! "X-Moondream-Auth" = Some [apiKey c]
    /\ http.Hdr req !! "Content-Type" = Some ["application/json"]
    /\ http.Body req = jsonPayload
    /\ (0 <= MaxRetries (config c) ->
        forall (fuel : nat) (result : R) (out : outcome R),
          sendRequest fuel w c endpoint payload result = Some out ->
          exists rest, out_trace out = EvDo req :: rest)
    /\ (forall (fuel : nat) (result : R) (out : outcome R) (r : http.Request),
          sendRequest fuel w c endpoint payload result = Some out ->
          In (EvDo r) (out_trace out) ->
          http.Method r = "POST"
          /\ http.URL r = (BaseURL (config c) ++ endpoint)%string
          /\ http.Hdr r !! "X-Moondream-Auth" = Some [apiKey c]
          /\ http.Hdr r !! "Content-Type" = Some ["application/json"]).
Proof.
  intros Hmarshal Hurl.
  assert (Hbuild : buildRequest w c endpoint payload
            = Ok (http.Header_Set "Content-Type" "application/json"
                    (http.Header_Set "X-Moondream-Auth" (apiKey c)
                       {| http.Method := "POST";
                          http.URL := (BaseURL (config c) ++ endpoint)%string;
                          http.Hdr := ∅;
                          http.Body := jsonPayload |}))).
  { unfold buildRequest, http_NewRequestWithContext.
    rewrite Hmarshal, Hurl. reflexivity. }
  assert (Hauth : http.Hdr (http.Header_Set "Content-Type" "application/json"
                    (http.Header_Set "X-Moondream-Auth" (apiKey c)
                       {| http.Method := "POST";
                          http.URL := (BaseURL (config c) ++ endpoint)%string;
                          http.Hdr := ∅;
                          http.Body := jsonPayload |}))
                  !! "X-Moondream-Auth" = Some [apiKey c]).
  { unfold http.Header_Set. cbn [http.Hdr].
    rewrite lookup_insert_ne by discriminate. apply lookup_insert_eq. }
  assert (Htype : http.Hdr (http.Header_Set "Content-Type" "application/json"
                    (http.Header_Set "X-Moondream-Auth" (apiKey c)
                       {| http.Method := "POST";
                          http.URL := (BaseURL (config c) ++ endpoint)%string;
                          http.Hdr := ∅;
                          http.Body := jsonPayload |}))
                  !! "Content-Type" = Some ["application/json"]).
  { unfold http.Header_Set. cbn [http.Hdr]. apply lookup_insert_eq. }
  eexists. split; [exact Hbuild |].
  split; [reflexivity |]. split; [reflexivity |].
  split; [exact Hauth |]. split; [exact Htype |]. split; [reflexivity |].
  split.
  - intros Hnonneg fuel result out Hrun.
    exact (sendRequest_first_attempt w c endpoint payload result _ fuel out
             Hbuild Hnonneg Hrun).
  - intros fuel result out r Hrun Hin.
    destruct (sendRequest_hands_over_built w c endpoint payload result _ fuel
                out r Hbuild Hrun Hin) as (Hm & Hu & Hh).
    rewrite Hm, Hu, Hh. split; [reflexivity |]. split; [reflexivity |].
    split; [exact Hauth | exact Htype].
Qed.

(** C2. When the configuration allows [MaxRetries >= 0] retries (a
    number below the largest [int], which the counter of the loop can
    pass by one), no wait is cut short by the context and every attempt
    gets an answer of status 500 or more, the executor makes exactly
    [MaxRetries + 1] attempts, waits [RetryDelay * attempt] (the
    product of the two [int64]s) before each attempt but the first, and
    returns the error [max retries exceeded] wrapping the [APIError] of
    the last answer. *)
Theorem sendRequest_exhausts_retries
    (w : World) (c : MoondreamClient) (endpoint : string) (payload : P)
    (result : R) (req : http.Request)
    (status : Z -> Z) (body : Z -> string) :
  buildRequest w c endpoint payload = Ok req ->
  0 <= MaxRetries (config c) ->
  MaxRetries (config c) < max_int64 ->
  (forall i, 0 < i <= MaxRetries (config c) ->
             ctx_select w i (retryDelay c i) = TimerFired) ->
  (forall i, 0 <= i <= MaxRetries (config c) ->
             client_Do w i req = DoResponse (status i) (BodyRead (body i))
             /\ 500 <= status i) ->
  forall fuel : nat, (Z.to_nat (MaxRetries (config c) + 2) <= fuel)%nat ->
    let trace := attempts_from c req (Z.to_nat (MaxRetries (config c) + 1)) 0 in
    let last := responseError (status (MaxRetries (config c)))
                              (body (MaxRetries (config c))) in
    sendRequest fuel w c endpoint payload result
    = Some (mkOutcome
              (Some (ErrWrap "max retries exceeded" (Some (ErrAPI last))))
              result trace)
    /\ attempts trace = MaxRetries (config c) + 1
    /\ (forall i, in_int64 (RetryDelay (config c) * i) ->
                  retryDelay c i = RetryDelay (config c) * i).
Proof.
  intros Hbuild Hnonneg Hmax Hsel Hdo fuel Hfuel trace last.
  split; [| split].
  - unfold sendRequest. rewrite Hbuild.
    destruct (turns_all_continue w c req
                (fun i e => e = ErrAPI (responseError (status i) (body i)))
                (fun r => r = result) Hmax Hsel)
      with (n := Z.to_nat (MaxRetries (config c) + 1)) (a := 0)
           (l := @None error) (r := result) (tr := @nil event)
      as (l' & r' & Hturns & -> & Hlast); try lia; try reflexivity.
    { intros i r Hi ->. destruct (Hdo i Hi) as [Hresp Hst].
      exists (ErrAPI (responseError (status i) (body i))), result.
      rewrite (attemptRequest_error_status w req i result _ _ Hresp) by lia.
      destruct (Z.ltb_spec (status i) 500); [lia | auto]. }
    destruct Hlast as [[Hn0 _] | (e & -> & ->)]; [lia |].
    replace fuel
      with (Z.to_nat (MaxRetries (config c) + 1)
            + S (fuel - Z.to_nat (MaxRetries (config c) + 2)))%nat by lia.
    rewrite (retryLoop_turns w c req _ _ _ _ _ _ _ _ _ _ Hturns).
    rewrite retryLoop_exhausted by lia. reflexivity.
  - unfold trace. rewrite attempts_attempts_from. lia.
  - intros i Hi. unfold retryDelay. apply wrap64_in_range. exact Hi.
Qed.

(** C3. An answer with a status from 400 to 499 to the first attempt
    ends the run with its [APIError] after that one attempt, without
    a wait; at whatever attempt the run has arrived, such an answer ends
    it with that attempt; among the answers of status 400 or more, those
    of status 500 or more, and only those, let the loop go on. *)
Theorem sendRequest_client_error_not_retried
    (w : World) (c : MoondreamClient) (endpoint : string) (payload : P)
    (result : R) (req : http.Request) (status : Z) (body : string) :
  buildRequest w c endpoint payload = Ok req ->
  0 <= MaxRetries (config c) ->
  client_Do w 0 req = DoResponse status (BodyRead body) ->
  400 <= status < 500 ->
  (forall fuel : nat,
     sendRequest (S fuel) w c endpoint payload result
     = Some (mkOutcome (Some (ErrAPI (responseError status body)))
                       result [EvDo req]))
  /\ attempts [EvDo req] = 1
  /\ (forall (n : nat) (a : Z) (l : option error) (r : R) (tr : list event)
             (st : Z) (b : string),
        turns n w c req 0 None result [] = Some (a, l, r, tr) ->
        a <= MaxRetries (config c) ->
        (0 < a -> ctx_select w a (retryDelay c a) = TimerFired) ->
        client_Do w a req = DoResponse st (BodyRead b) ->
        400 <= st < 500 ->
        forall fuel : nat,
          sendRequest (n + S fuel) w c endpoint payload result
          = Some (mkOutcome (Some (ErrAPI (responseError st b))) r
                    (tr ++ (if 0 <? a then [EvWait (retryDelay c a)] else [])
                        ++ [EvDo req])))
  /\ (forall (a : Z) (r : R) (st : Z) (b : string),
        client_Do w a req = DoResponse st (BodyRead b) -> 400 <= st ->
        (500 <= st <->
         exists e r', attemptRequest w req a r = Continue e r')).
Proof.
  intros Hbuild Hnonneg Hdo Hst. split; [| split; [reflexivity | split]].
  - intros fuel. unfold sendRequest. rewrite Hbuild.
    rewrite (retryLoop_return w c req fuel 0 None
               (Some (ErrAPI (responseError status body))) result result
               [] []); [reflexivity | lia | reflexivity |].
    rewrite (attemptRequest_error_status w req 0 result _ _ Hdo) by lia.
    destruct (Z.ltb_spec status 500); [reflexivity | lia].
  - intros n a l r tr st b Hturns Ha Hsel Hresp Hrange fuel.
    unfold sendRequest. rewrite Hbuild.
    rewrite (retryLoop_turns w c req _ _ _ _ _ _ _ _ _ _ Hturns).
    apply retryLoop_return; [exact Ha | apply backoff_timer; exact Hsel |].
    rewrite (attemptRequest_error_status w req a r _ _ Hresp) by lia.
    destruct (Z.ltb_spec st 500); [reflexivity | lia].
  - intros a r st b Hresp Hge.
    rewrite (attemptRequest_error_status w req a r _ _ Hresp Hge).
    destruct (Z.ltb_spec st 500) as [Hlt | Hle]; split.
    + lia.
    + intros (e & r' & Habs). discriminate.
    + intros _. eauto.
    + intros _. exact Hle.
Qed.

(** C4. When the run has come to the wait before attempt [a] (after
    [n] turns of the loop that ended in [continue]) and the context is
    done before the timer of that wait, the executor returns the error
    of the context at once: the wait is the last thing it does and no
    request is handed to the transport after it. *)
Theorem sendRequest_cancelled_in_backoff
    (w : World) (c : MoondreamClient) (endpoint : string) (payload : P)
    (result : R) (req : http.Request)
    (n : nat) (a : Z) (l : option error) (r : R) (tr : list event)
    (e : ctx_error) :
  buildRequest w c endpoint payload = Ok req ->
  turns n w c req 0 None result [] = Some (a, l, r, tr) ->
  0 < a <= MaxRetries (config c) ->
  ctx_select w a (retryDelay c a) = CtxDone e ->
  forall fuel : nat,
    sendRequest (n + S fuel) w c endpoint payload result
    = Some (mkOutcome (Some (ErrContext e)) r
                      (tr ++ [EvCancelled (retryDelay c a)]))
    /\ attempts (tr ++ [EvCancelled (retryDelay c a)]) = attempts tr.
Proof.
  intros Hbuild Hturns Ha Hsel fuel. split.
  - unfold sendRequest. rewrite Hbuild.
    rewrite (retryLoop_turns w c req _ _ _ _ _ _ _ _ _ _ Hturns).
    apply retryLoop_cancelled; assumption.
  - rewrite attempts_app.
    change (attempts [EvCancelled (retryDelay c a)]) with 0. lia.
Qed.

(** C6. For an answer of status 400 or more the executor unmarshals
    the body into an [APIError] and keeps that as the error of the
    attempt; when [Unmarshal] fails, as it does for a body that is not
    JSON, the [APIError] has the status of the answer and the raw body
    as message. An answer 401 with the body
    [{"status_code":401,"message":"invalid key"}] to the first attempt
    gives the [APIError] with status code 401 and message
    [invalid key] after exactly one attempt. *)
Theorem sendRequest_error_response
    (w : World) (c : MoondreamClient) (endpoint : string) (payload : P)
    (result : R) (req : http.Request)
    (a : Z) (r : R) (status : Z) (body : string) :
  buildRequest w c endpoint payload = Ok req ->
  client_Do w a req = DoResponse status (BodyRead body) ->
  400 <= status ->
  attemptRequest w req a r =
    (if status <? 500
     then Return (Some (ErrAPI (responseError status body))) r
     else Continue (ErrAPI (responseError status body)) r)
  /\ (forall e, json_Unmarshal body zeroAPIError = (e, None) ->
                responseError status body = e)
  /\ (forall e err, json_Unmarshal body zeroAPIError = (e, Some err) ->
        responseError status body = {| StatusCode := status; Message := body |})
  /\ (json.parse body = None ->
        responseError status body = {| StatusCode := status; Message := body |})
  /\ (a = 0 -> 0 <= MaxRetries (config c) -> status = 401 ->
      body = json_text "{'status_code':401,'message':'invalid key'}" ->
      forall fuel : nat,
        sendRequest (S fuel) w c endpoint payload result
        = Some (mkOutcome
                  (Some (ErrAPI {| StatusCode := 401; Message := "invalid key" |}))
                  result [EvDo req])
        /\ attempts [EvDo req] = 1).
Proof.
  intros Hbuild Hdo Hst.
  split; [apply attemptRequest_error_status; assumption |].
  split; [intros e; apply responseError_unmarshalled |].
  split; [intros e err; apply responseError_synthesized |].
  split; [apply responseError_not_json |].
  intros -> Hnonneg -> -> fuel. split; [| reflexivity].
  unfold sendRequest. rewrite Hbuild.
  rewrite (retryLoop_return w c req fuel 0 None
             (Some (ErrAPI {| StatusCode := 401; Message := "invalid key" |}))
             result result [] []); [reflexivity | lia | reflexivity |].
  rewrite (attemptRequest_error_status w req 0 result _ _ Hdo) by lia.
  reflexivity.
Qed.

(** One more turn that ends in [continue], after [n] of them. *)
Lemma turns_step (w : World) (c : MoondreamClient) (req : http.Request)
    (n : nat) (a0 a : Z) (l0 l : option error) (r0 r r' : R)
    (tr0 tr evs : list event) (e : error) :
  turns n w c req a0 l0 r0 tr0 = Some (a, l, r, tr) ->
  a <= MaxRetries (config c) ->
  backoff w c a = (evs, None) ->
  attemptRequest w req a r = Continue e r' ->
  turns (S n) w c req a0 l0 r0 tr0
  = Some (wrap64 (a + 1), Some e, r', tr ++ evs ++ [EvDo req]).
Proof.
  intros Hturns Ha Hwait Hstep. revert a0 l0 r0 tr0 Hturns.
  induction n as [| n IH]; intros a0 l0 r0 tr0 Hturns.
  - cbn [turns] in Hturns. injection Hturns as -> -> -> ->.
    cbn [turns]. destruct (Z.leb_spec a (MaxRetries (config c))); [| lia].
    rewrite Hwait, Hstep. reflexivity.
  - cbn [turns] in Hturns. remember (S n) as m. cbn [turns]. subst m.
    destruct (a0 <=? MaxRetries (config c)); [| discriminate].
    destruct (backoff w c a0) as [evs0 [e0 |]]; [discriminate |].
    destruct (attemptRequest w req a0 r0) as [err r1 | err r1 |];
      [| discriminate | discriminate].
    apply IH. exact Hturns.
Qed.

(** C7. When the run of the executor has come to attempt [a] and that
    attempt gets an answer of status below 400 whose body [Unmarshal]
    rejects for the expected result, the executor does not return: it
    keeps the error [failed to unmarshal response] as the last one and
    is at the next attempt number. When attempt [a] was the last one
    allowed, the call ends with [max retries exceeded] around that error;
    when it was not, the next thing the executor does, after its wait,
    is to hand the request to the transport once more. *)
Theorem sendRequest_retries_malformed_success
    (w : World) (c : MoondreamClient) (endpoint : string) (payload : P)
    (result : R) (req : http.Request)
    (n : nat) (a : Z) (l : option error) (r r' : R) (tr : list event)
    (status : Z) (body : string) (err : error) :
  buildRequest w c endpoint payload = Ok req ->
  turns n w c req 0 None result [] = Some (a, l, r, tr) ->
  0 <= a <= MaxRetries (config c) ->
  a < max_int64 ->
  (0 < a -> ctx_select w a (retryDelay c a) = TimerFired) ->
  client_Do w a req = DoResponse status (BodyRead body) ->
  status < 400 ->
  json_Unmarshal body r = (r', Some err) ->
  let decodeErr := ErrWrap "failed to unmarshal response" (Some err) in
  let trace := tr ++ (if 0 <? a then [EvWait (retryDelay c a)] else [])
                  ++ [EvDo req] in
  turns (S n) w c req 0 None result [] = Some (a + 1, Some decodeErr, r', trace)
  /\ (forall fuel : nat,
        sendRequest (n + S fuel) w c endpoint payload result
        = retryLoop fuel w c req (a + 1) (Some decodeErr) r' trace)
  /\ (a = MaxRetries (config c) ->
      forall fuel : nat,
        sendRequest (n + S (S fuel)) w c endpoint payload result
        = Some (mkOutcome
                  (Some (ErrWrap "max retries exceeded" (Some decodeErr)))
                  r' trace))
  /\ (a < MaxRetries (config c) ->
      ctx_select w (a + 1) (retryDelay c (a + 1)) = TimerFired ->
      forall (fuel : nat) (out : outcome R),
        sendRequest (n + S fuel) w c endpoint payload result = Some out ->
        exists rest,
          out_trace out
          = trace ++ [EvWait (retryDelay c (a + 1)); EvDo req] ++ rest).
Proof.
  intros Hbuild Hturns Ha Hmax Hsel Hdo Hst Hun decodeErr trace.
  assert (Hstep : attemptRequest w req a r = Continue decodeErr r').
  { unfold attemptRequest. rewrite Hdo.
    destruct (Z.leb_spec 400 status); [lia |]. rewrite Hun. reflexivity. }
  assert (Hwait : backoff w c a
                  = (if 0 <? a then [EvWait (retryDelay c a)] else [], None))
    by (apply backoff_timer; exact Hsel).
  assert (Hnext : wrap64 (a + 1) = a + 1).
  { apply wrap64_in_range. unfold in_int64, min_int64, max_int64 in *. lia. }
  assert (Hgo : forall fuel : nat,
            sendRequest (n + S fuel) w c endpoint payload result
            = retryLoop fuel w c req (a + 1) (Some decodeErr) r' trace).
  { intros fuel. unfold sendRequest. rewrite Hbuild.
    rewrite (retryLoop_turns w c req _ _ _ _ _ _ _ _ _ _ Hturns).
    rewrite (retryLoop_continue w c req fuel a l decodeErr r r' tr _
               (proj2 Ha) Hwait Hstep).
    rewrite Hnext. reflexivity. }
  split; [| split; [exact Hgo | split]].
  - rewrite (turns_step w c req n 0 a None l result r r' [] tr _ decodeErr
               Hturns (proj2 Ha) Hwait Hstep).
    rewrite Hnext. reflexivity.
  - intros Hlast fuel. rewrite Hgo. apply retryLoop_exhausted. lia.
  - intros Hmore Hsel' fuel out Hrun. rewrite Hgo in Hrun.
    destruct fuel as [| fuel]; [discriminate |].
    cbn [retryLoop] in Hrun.
    destruct (Z.leb_spec (a + 1) (MaxRetries (config c))); [| lia].
    rewrite (backoff_timer w c (a + 1) (fun _ => Hsel')) in Hrun.
    destruct (Z.ltb_spec 0 (a + 1)); [| lia].
    destruct (attemptRequest w req (a + 1) r') as [e1 r1 | e1 r1 |].
    + destruct (retryLoop_trace_extends _ _ _ _ _ _ _ _ _ Hrun)
        as [rest Hrest].
      exists rest. rewrite Hrest. rewrite <- ?app_assoc. reflexivity.
    + injection Hrun as <-. exists []. cbn [out_trace].
      rewrite <- ?app_assoc. reflexivity.
    + discriminate.
Qed.

End Requests.


(** ** The properties at sample inputs *)

Lemma sendRequest_builds_request_witness :
  exists req : http.Request,
    buildRequest (server_world 200 "{}") test_client "/caption" test_payload
    = Ok req
    /\ http.Method req = "POST"
    /\ http.URL req = "http://127.0.0.1:8080/caption"
    /\ http.Hdr req !! "X-Moondream-Auth" = Some ["test-api-key"]
    /\ http.Hdr req !! "Content-Type" = Some ["application/json"]
    /\ http.Body req = http.Body test_request
    /\ (0 <= MaxRetries (config test_client) ->
        forall (fuel : nat) (result : CaptionResponse)
               (out : outcome CaptionResponse),
          sendRequest fuel (server_world 200 "{}") test_client "/caption"
            test_payload result = Some out ->
          exists rest, out_trace out = EvDo req :: rest)
    /\ (forall (fuel : nat) (result : CaptionResponse)
               (out : outcome CaptionResponse) (r : http.Request),
          sendRequest fuel (server_world 200 "{}") test_client "/caption"
            test_payload result = Some out ->
          In (EvDo r) (out_trace out) ->
          http.Method r = "POST"
          /\ http.URL r = "http://127.0.0.1:8080/caption"
          /\ http.Hdr r !! "X-Moondream-Auth" = Some ["test-api-key"]
          /\ http.Hdr r !! "Content-Type" = Some ["application/json"]).
Proof.
  apply (sendRequest_builds_request (R := CaptionResponse)
           (server_world 200 "{}") test_client "/caption" test_payload
           (http.Body test_request)).
  - vm_compute. reflexivity.
  - reflexivity.
Defined.

(** C1 as the specification words it fails: the request built for the
    test client carries no header [X-Api-Auth]; the key is in
    [X-Moondream-Auth]. *)
Lemma sendRequest_no_X_Api_Auth :
  buildRequest (server_world 200 "{}") test_client "/caption" test_payload
  = Ok test_request
  /\ http.Hdr test_request !! "X-Api-Auth" = None
  /\ http.Hdr test_request !! "X-Moondream-Auth" = Some ["test-api-key"].
Proof.
  split; [vm_compute; reflexivity |].
  unfold test_request, http.Header_Set. cbn [http.Hdr]. split.
  - rewrite !lookup_insert_ne by discriminate. apply lookup_empty.
  - rewrite lookup_insert_ne by discriminate. apply lookup_insert_eq.
Qed.

Lemma test_request_built (status : Z) (body : string) :
  buildRequest (server_world status body) test_client "/caption" test_payload
  = Ok test_request.
Proof. vm_compute. reflexivity. Qed.

Lemma sendRequest_exhausts_retries_witness :
  sendRequest 5 (server_world 503 "Service Unavailable") test_client "/caption"
    test_payload (mkCaptionResponse "")
  = Some (mkOutcome
            (Some (ErrWrap "max retries exceeded"
                     (Some (ErrAPI {| StatusCode := 503;
                                      Message := "Service Unavailable" |}))))
            (mkCaptionResponse "")
            [EvDo test_request;
             EvWait 1000000000; EvDo test_request;
             EvWait 2000000000; EvDo test_request;
             EvWait 3000000000; EvDo test_request]).
Proof.
  destruct (sendRequest_exhausts_retries
              (server_world 503 "Service Unavailable") test_client "/caption"
              test_payload (mkCaptionResponse "") test_request
              (fun _ => 503) (fun _ => "Service Unavailable"))
    with (fuel := 5%nat) as [Hrun _].
  - apply test_request_built.
  - vm_compute. discriminate.
  - reflexivity.
  - intros i _. reflexivity.
  - intros i _. split; [reflexivity | lia].
  - vm_compute. lia.
  - exact Hrun.
Defined.

Lemma sendRequest_client_error_not_retried_witness :
  sendRequest 1 (server_world 404 "not found") test_client "/caption"
    test_payload (mkCaptionResponse "")
  = Some (mkOutcome
            (Some (ErrAPI {| StatusCode := 404; Message := "not found" |}))
            (mkCaptionResponse "") [EvDo test_request])
  /\ attempts [EvDo test_request] = 1.
Proof.
  destruct (sendRequest_client_error_not_retried
              (server_world 404 "not found") test_client "/caption"
              test_payload (mkCaptionResponse "") test_request 404 "not found")
    as (Hrun & Hone & _).
  - apply test_request_built.
  - vm_compute. discriminate.
  - reflexivity.
  - lia.
  - split; [apply (Hrun 0%nat) | exact Hone].
Defined.

Lemma sendRequest_cancelled_in_backoff_witness :
  sendRequest 2 (cancelled_world 503 "busy") test_client "/caption"
    test_payload (mkCaptionResponse "")
  = Some (mkOutcome (Some (ErrContext Canceled)) (mkCaptionResponse "")
            [EvDo test_request; EvCancelled 1000000000])
  /\ attempts [EvDo test_request; EvCancelled 1000000000]
     = attempts [EvDo test_request].
Proof.
  refine (sendRequest_cancelled_in_backoff
           (cancelled_world 503 "busy") test_client "/caption" test_payload
           (mkCaptionResponse "") test_request 1 1
           (Some (ErrAPI {| StatusCode := 503; Message := "busy" |}))
           (mkCaptionResponse "") [EvDo test_request] Canceled _ _ _ _ 0%nat).
  - vm_compute. reflexivity.
  - vm_compute. reflexivity.
  - vm_compute. split; [reflexivity | discriminate].
  - reflexivity.
Defined.

Lemma sendRequest_error_response_witness :
  sendRequest 1
    (server_world 401 (json_text "{'status_code':401,'message':'invalid key'}"))
    test_client "/caption" test_payload (mkCaptionResponse "")
  = Some (mkOutcome
            (Some (ErrAPI {| StatusCode := 401; Message := "invalid key" |}))
            (mkCaptionResponse "") [EvDo test_request])
  /\ attempts [EvDo test_request] = 1.
Proof.
  destruct (sendRequest_error_response
              (server_world 401
                 (json_text "{'status_code':401,'message':'invalid key'}"))
              test_client "/caption" test_payload (mkCaptionResponse "")
              test_request 0 (mkCaptionResponse "") 401
              (json_text "{'status_code':401,'message':'invalid key'}"))
    as (_ & _ & _ & _ & Hscenario).
  - apply test_request_built.
  - reflexivity.
  - lia.
  - apply (Hscenario eq_refl); [vm_compute; discriminate | reflexivity
                                | reflexivity].
Defined.

Lemma sendRequest_retries_malformed_success_witness :
  sendRequest 5 (server_world 200 "not json") test_client "/caption"
    test_payload (mkCaptionResponse "")
  = Some (mkOutcome
            (Some (ErrWrap "max retries exceeded"
                     (Some (ErrWrap "failed to unmarshal response"
                              (Some json.SyntaxError)))))
            (mkCaptionResponse "")
            [EvDo test_request;
             EvWait 1000000000; EvDo test_request;
             EvWait 2000000000; EvDo test_request;
             EvWait 3000000000; EvDo test_request]).
Proof.
  destruct (sendRequest_retries_malformed_success
              (server_world 200 "not json") test_client "/caption"
              test_payload (mkCaptionResponse "") test_request
              3 3
              (Some (ErrWrap "failed to unmarshal response"
                       (Some json.SyntaxError)))
              (mkCaptionResponse "") (mkCaptionResponse "")
              [EvDo test_request;
               EvWait 1000000000; EvDo test_request;
               EvWait 2000000000; EvDo test_request]
              200 "not json" json.SyntaxError)
    as (_ & _ & Hlast & _).
  - apply test_request_built.
  - vm_compute. reflexivity.
  - vm_compute. split; discriminate.
  - reflexivity.
  - intros _. reflexivity.
  - reflexivity.
  - lia.
  - vm_compute. reflexivity.
  - exact (Hlast eq_refl 0%nat).
Defined.

(** A server that answers 200 with a body that is not JSON to every
    attempt uses up the four attempts of the default configuration. *)
Lemma malformed_success_consumes_retries :
  sendRequest 5 (server_world 200 "not json") test_client "/caption"
    test_payload (mkCaptionResponse "")
  = Some (mkOutcome
            (Some (ErrWrap "max retries exceeded"
                     (Some (ErrWrap "failed to unmarshal response"
                              (Some json.SyntaxError)))))
            (mkCaptionResponse "")
            [EvDo test_request;
             EvWait 1000000000; EvDo test_request;
             EvWait 2000000000; EvDo test_request;
             EvWait 3000000000; EvDo test_request]).
Proof. vm_compute. reflexivity. Qed.



(** * Further properties of the package *)

(** ** Options *)

(** X1. [WithTimeout] sets the timeout of the configuration and that of
    the transport to the same value and leaves the base URL, the number
    of retries, the retry delay and the API key as they are. *)
Theorem WithTimeout_sets_both_timeouts (timeout : Z) (c : MoondreamClient) :
  Timeout (config (WithTimeout timeout c)) = timeout
  /\ http.Timeout (client (WithTimeout timeout c)) = timeout
  /\ BaseURL (config (WithTimeout timeout c)) = BaseURL (config c)
  /\ MaxRetries (config (WithTimeout timeout c)) = MaxRetries (config c)
  /\ RetryDelay (config (WithTimeout timeout c)) = RetryDelay (config c)
  /\ apiKey (WithTimeout timeout c) = apiKey c.
Proof. repeat split. Qed.

Lemma package_option_keeps_well_built (key : string) (opt : ClientOption)
    (c : MoondreamClient) :
  package_option opt -> well_built key c -> well_built key (opt c).
Proof.
  intros Hopt (Hkey & Hretries & Hdelay & Htimeout).
  destruct Hopt as [timeout | baseURL]; repeat split; assumption.
Qed.

Lemma options_keep_well_built (key : string) (opts : list ClientOption)
    (c : MoondreamClient) :
  Forall package_option opts -> well_built key c ->
  well_built key (fold_left (fun c (opt : ClientOption) => opt c) opts c).
Proof.
  intros Hopts. revert c.
  induction Hopts as [| opt opts Hopt _ IH]; intros c Hc; [exact Hc |].
  cbn [fold_left]. apply IH.
  apply package_option_keeps_well_built; assumption.
Qed.

(** X2. Whatever options of the package a client is constructed with, in
    whatever order, it keeps the API key it was given, 3 retries and a
    retry delay of one second, and its transport has the timeout of its
    configuration. *)
Theorem NewMoondreamClient_well_built (key : string) (opts : list ClientOption) :
  Forall package_option opts ->
  well_built key (NewMoondreamClient key opts).
Proof.
  intros Hopts. unfold NewMoondreamClient.
  apply options_keep_well_built; [exact Hopts |]. repeat split.
Qed.

Lemma NewMoondreamClient_well_built_witness :
  well_built "test-api-key"
    (NewMoondreamClient "test-api-key"
       [WithTimeout 5000000000; WithBaseURL "https://custom.api.example.com"]).
Proof.
  apply (NewMoondreamClient_well_built "test-api-key"
           [WithTimeout 5000000000;
            WithBaseURL "https://custom.api.example.com"]).
  repeat constructor.
Defined.

(** X3. Of two options of the same kind the one applied last decides, and
    options of different kinds can be given in either order. *)
Theorem options_compose (t1 t2 : Z) (u1 u2 : string) (c : MoondreamClient) :
  WithTimeout t2 (WithTimeout t1 c) = WithTimeout t2 c
  /\ WithBaseURL u2 (WithBaseURL u1 c) = WithBaseURL u2 c
  /\ WithTimeout t1 (WithBaseURL u1 c) = WithBaseURL u1 (WithTimeout t1 c)
  /\ forall (key : string) (opts : list ClientOption),
       NewMoondreamClient key (opts ++ [WithTimeout t1; WithBaseURL u1])
       = NewMoondreamClient key (opts ++ [WithBaseURL u1; WithTimeout t1]).
Proof.
  split; [reflexivity |]. split; [reflexivity |]. split; [reflexivity |].
  intros key opts. unfold NewMoondreamClient.
  rewrite !fold_left_app. reflexivity.
Qed.

(** ** The image encoder, in full *)

(** X4. The encoder returns a data URI exactly when the file can be read,
    and then the URI of the bytes read; when the file cannot be read it
    returns the error of the read wrapped in [failed to read image file].
    The client it is called on plays no part. *)
Theorem encodeImage_result (w : World) (c : MoondreamClient) (imagePath : string) :
  (forall uri, encodeImage w c imagePath = Ok uri <->
     exists imageData,
       os_ReadFile w imagePath = Ok imageData
       /\ uri = ("data:image/jpeg;base64,"
                 ++ base64.EncodeToString imageData)%string)
  /\ (forall err, encodeImage w c imagePath = Err err <->
        exists cause,
          os_ReadFile w imagePath = Err cause
          /\ err = ErrWrap "failed to read image file" (Some cause))
  /\ (forall c', encodeImage w c' imagePath = encodeImage w c imagePath).
Proof.
  unfold encodeImage.
  destruct (os_ReadFile w imagePath) as [imageData | cause];
    (split; [| split; [| reflexivity]]).
  - intros uri. split.
    + intros [= <-]. exists imageData. split; reflexivity.
    + intros (d & [= <-] & ->). reflexivity.
  - intros err. split; [discriminate |]. intros (cause & Habs & _). discriminate.
  - intros uri. split; [discriminate |]. intros (d & Habs & _). discriminate.
  - intros err. split.
    + intros [= <-]. exists cause. split; reflexivity.
    + intros (cause' & [= <-] & ->). reflexivity.
Qed.

(** ** The command line *)

(** X5. [main] calls the client only when there are at least two
    arguments after the program name and the variable [mdAPI] is not
    empty; the client it builds then has that key, a timeout of 30
    seconds and the other defaults; [caption] is asked with the length
    [long], and [query], [detect] and [point] need a third argument,
    which they pass on. In every other case [main] stops before any
    call. *)
Theorem main_startup_calls (Args : list string) (mdAPI : string)
    (c : MoondreamClient) (call : invocation) :
  main_startup Args mdAPI = Start c call ->
  mdAPI <> EmptyString
  /\ c = NewMoondreamClient mdAPI [WithTimeout 30000000000]
  /\ apiKey c = mdAPI
  /\ exists program function imagePath rest,
       Args = program :: function :: imagePath :: rest
       /\ ((function = "caption" /\ call = CallCaption imagePath "long")
           \/ exists arg rest',
                rest = arg :: rest'
                /\ ((function = "query" /\ call = CallQuery imagePath arg)
                    \/ (function = "detect" /\ call = CallDetect imagePath arg)
                    \/ (function = "point" /\ call = CallPoint imagePath arg))).
Proof.
  unfold main_startup. intros Hstart.
  destruct (Z.of_nat (length Args) <? 3); [discriminate |].
  destruct (String.eqb_spec mdAPI EmptyString) as [| Hkey]; [discriminate |].
  destruct Args as [| program [| function [| imagePath rest]]];
    try discriminate.
  split; [exact Hkey |].
  assert (Hc : c = NewMoondreamClient mdAPI [WithTimeout 30000000000]).
  { destruct (String.eqb function "caption");
      [injection Hstart as <- _; reflexivity |].
    destruct (String.eqb function "query");
      [destruct rest; [discriminate | injection Hstart as <- _; reflexivity] |].
    destruct (String.eqb function "detect");
      [destruct rest; [discriminate | injection Hstart as <- _; reflexivity] |].
    destruct (String.eqb function "point");
      [destruct rest; [discriminate | injection Hstart as <- _; reflexivity] |].
    discriminate. }
  split; [exact Hc |]. split; [rewrite Hc; reflexivity |].
  exists program, function, imagePath, rest. split; [reflexivity |].
  destruct (String.eqb_spec function "caption") as [-> | _].
  { left. split; [reflexivity | congruence]. }
  right.
  destruct (String.eqb_spec function "query") as [-> | _].
  { destruct rest as [| arg rest']; [discriminate |].
    exists arg, rest'. split; [reflexivity |]. left. split; congruence. }
  destruct (String.eqb_spec function "detect") as [-> | _].
  { destruct rest as [| arg rest']; [discriminate |].
    exists arg, rest'. split; [reflexivity |]. right. left. split; congruence. }
  destruct (String.eqb_spec function "point") as [-> | _].
  { destruct rest as [| arg rest']; [discriminate |].
    exists arg, rest'. split; [reflexivity |]. right. right. split; congruence. }
  discriminate.
Qed.

Lemma main_startup_calls_witness :
  "my-key" <> EmptyString
  /\ NewMoondreamClient "my-key" [WithTimeout 30000000000]
     = NewMoondreamClient "my-key" [WithTimeout 30000000000]
  /\ apiKey (NewMoondreamClient "my-key" [WithTimeout 30000000000]) = "my-key"
  /\ exists program function imagePath rest,
       ["moondream"; "query"; "cat.jpg"; "What is this?"]
       = program :: function :: imagePath :: rest
       /\ ((function = "caption"
            /\ CallQuery "cat.jpg" "What is this?" = CallCaption imagePath "long")
           \/ exists arg rest',
                rest = arg :: rest'
                /\ ((function = "query"
                     /\ CallQuery "cat.jpg" "What is this?"
                        = CallQuery imagePath arg)
                    \/ (function = "detect"
                        /\ CallQuery "cat.jpg" "What is this?"
                           = CallDetect imagePath arg)
                    \/ (function = "point"
                        /\ CallQuery "cat.jpg" "What is this?"
                           = CallPoint imagePath arg))).
Proof.
  apply (main_startup_calls ["moondream"; "query"; "cat.jpg"; "What is this?"]
           "my-key" (NewMoondreamClient "my-key" [WithTimeout 30000000000])
           (CallQuery "cat.jpg" "What is this?")).
  reflexivity.
Defined.

(** X6. [main] stops with the usage text when fewer than two arguments
    follow the program name, whatever the environment; with enough
    arguments and an empty [mdAPI] it stops with the message about the
    variable; with a key, an unknown function name stops it with
    [Unknown function], and [query], [detect] and [point] without a third
    argument stop it with their usage line. *)
Theorem main_startup_stops (Args : list string) (mdAPI : string) :
  ((length Args < 3)%nat -> main_startup Args mdAPI = Fatal usage)
  /\ ((3 <= length Args)%nat -> mdAPI = EmptyString ->
      main_startup Args mdAPI
      = Fatal "Error: mdAPI environment variable not set")
  /\ (forall program function imagePath rest,
        Args = program :: function :: imagePath :: rest ->
        mdAPI <> EmptyString ->
        function <> "caption" -> function <> "query" ->
        function <> "detect" -> function <> "point" ->
        main_startup Args mdAPI
        = Fatal ("Unknown function: " ++ function)%string)
  /\ (forall program imagePath,
        mdAPI <> EmptyString ->
        main_startup [program; "query"; imagePath] mdAPI
        = Fatal "Usage: moondream query <image-path> <question>"
        /\ main_startup [program; "detect"; imagePath] mdAPI
           = Fatal "Usage: moondream detect <image-path> <object>"
        /\ main_startup [program; "point"; imagePath] mdAPI
           = Fatal "Usage: moondream point <image-path> <object>").
Proof.
  split; [| split; [| split]].
  - intros Hlen. unfold main_startup.
    destruct (Z.ltb_spec (Z.of_nat (length Args)) 3); [reflexivity | lia].
  - intros Hlen ->. unfold main_startup.
    destruct (Z.ltb_spec (Z.of_nat (length Args)) 3); [lia | reflexivity].
  - intros program function imagePath rest -> Hkey Hc Hq Hd Hp.
    unfold main_startup.
    destruct (Z.ltb_spec (Z.of_nat (length (program :: function :: imagePath :: rest))) 3)
      as [Hlen | _]; [cbn [length] in Hlen; lia |].
    destruct (String.eqb_spec mdAPI EmptyString); [contradiction |].
    destruct (String.eqb_spec function "caption"); [contradiction |].
    destruct (String.eqb_spec function "query"); [contradiction |].
    destruct (String.eqb_spec function "detect"); [contradiction |].
    destruct (String.eqb_spec function "point"); [contradiction |].
    reflexivity.
  - intros program imagePath Hkey. unfold main_startup. cbn [length].
    destruct (String.eqb_spec mdAPI EmptyString); [contradiction |].
    repeat split.
Qed.

(** ** The request executor, the other paths *)

Lemma waited_app (t1 t2 : list event) :
  waited (t1 ++ t2) = waited t1 + waited t2.
Proof.
  induction t1 as [| e t1 IH]; [reflexivity |].
  cbn [app waited]. destruct e; lia.
Qed.

Section OtherPaths.

Context {P R : Type} `{Marshaler P} `{Unmarshaler R}.

(** X7. When the payload cannot be marshalled, or the request cannot be
    created for the URL, the executor returns that error wrapped in
    [failed to marshal payload] and [failed to create request]: nothing
    is sent, nothing waited for, and the result is not written. *)
Theorem sendRequest_setup_failure
    (w : World) (c : MoondreamClient) (endpoint : string) (payload : P)
    (result : R) :
  (forall err, json_Marshal payload = Err err ->
     forall fuel,
       sendRequest fuel w c endpoint payload result
       = Some (mkOutcome (Some (ErrWrap "failed to marshal payload" (Some err)))
                         result []))
  /\ (forall jsonPayload err,
        json_Marshal payload = Ok jsonPayload ->
        http_NewRequest_error w "POST" (BaseURL (config c) ++ endpoint)%string
        = Some err ->
        forall fuel,
          sendRequest fuel w c endpoint payload result
          = Some (mkOutcome
                    (Some (ErrWrap "failed to create request" (Some err)))
                    result [])).
Proof.
  split.
  - intros err Hmarshal fuel. unfold sendRequest, buildRequest.
    rewrite Hmarshal. reflexivity.
  - intros jsonPayload err Hmarshal Hurl fuel.
    unfold sendRequest, buildRequest, http_NewRequestWithContext.
    rewrite Hmarshal, Hurl. reflexivity.
Qed.

(** X8. With a negative number of retries the loop body never runs: no
    request is sent and the error is [max retries exceeded] around no
    error at all. *)
Theorem sendRequest_negative_retries
    (w : World) (c : MoondreamClient) (endpoint : string) (payload : P)
    (result : R) (req : http.Request) :
  buildRequest w c endpoint payload = Ok req ->
  MaxRetries (config c) < 0 ->
  forall fuel : nat,
    sendRequest (S fuel) w c endpoint payload result
    = Some (mkOutcome (Some (ErrWrap "max retries exceeded" None)) result []).
Proof.
  intros Hbuild Hneg fuel. unfold sendRequest. rewrite Hbuild.
  apply retryLoop_exhausted. lia.
Qed.

(** X9. When the run has come to attempt [a] and that attempt gets an
    answer of status below 400 whose body unmarshals, the executor
    returns no error at once, with the result unmarshalled from that
    body: earlier failures leave no mark but their attempts and waits. *)
Theorem sendRequest_success_after_retries
    (w : World) (c : MoondreamClient) (endpoint : string) (payload : P)
    (result : R) (req : http.Request)
    (n : nat) (a : Z) (l : option error) (r r' : R) (tr : list event)
    (status : Z) (body : string) :
  buildRequest w c endpoint payload = Ok req ->
  turns n w c req 0 None result [] = Some (a, l, r, tr) ->
  a <= MaxRetries (config c) ->
  (0 < a -> ctx_select w a (retryDelay c a) = TimerFired) ->
  client_Do w a req = DoResponse status (BodyRead body) ->
  status < 400 ->
  json_Unmarshal body r = (r', None) ->
  forall fuel : nat,
    sendRequest (n + S fuel) w c endpoint payload result
    = Some (mkOutcome None r'
              (tr ++ (if 0 <? a then [EvWait (retryDelay c a)] else [])
                  ++ [EvDo req])).
Proof.
  intros Hbuild Hturns Ha Hsel Hdo Hst Hun fuel.
  unfold sendRequest. rewrite Hbuild.
  rewrite (retryLoop_turns w c req _ _ _ _ _ _ _ _ _ _ Hturns).
  apply retryLoop_return; [exact Ha | apply backoff_timer; exact Hsel |].
  unfold attemptRequest. rewrite Hdo.
  destruct (Z.leb_spec 400 status); [lia |]. rewrite Hun. reflexivity.
Qed.

Lemma attemptRequest_transient (w : World) (req : http.Request) (a : Z)
    (r : R) (e : error) :
  transient_error (client_Do w a req) = Some e ->
  attemptRequest w req a r = Continue e r.
Proof.
  unfold transient_error, attemptRequest.
  destruct (client_Do w a req) as [err | status [body | err |] |].
  - intros [= <-]. reflexivity.
  - destruct (Z.leb_spec 500 status) as [Hge | Hlt]; [| discriminate].
    intros [= <-].
    destruct (Z.leb_spec 400 status); [| lia].
    destruct (Z.ltb_spec status 500); [lia | reflexivity].
  - intros [= <-]. reflexivity.
  - discriminate.
  - discriminate.
Qed.

(** X10. When every attempt fails in the transport, in the reading of the
    body or with a status of 500 or more, in any mix, and no wait is cut
    short, the executor makes all [MaxRetries + 1] attempts with their
    waits and returns [max retries exceeded] around the error of the last
    attempt; the result is not written. *)
Theorem sendRequest_transient_failures
    (w : World) (c : MoondreamClient) (endpoint : string) (payload : P)
    (result : R) (req : http.Request) (failure : Z -> error) :
  buildRequest w c endpoint payload = Ok req ->
  0 <= MaxRetries (config c) ->
  MaxRetries (config c) < max_int64 ->
  (forall i, 0 < i <= MaxRetries (config c) ->
             ctx_select w i (retryDelay c i) = TimerFired) ->
  (forall i, 0 <= i <= MaxRetries (config c) ->
             transient_error (client_Do w i req) = Some (failure i)) ->
  forall fuel : nat, (Z.to_nat (MaxRetries (config c) + 2) <= fuel)%nat ->
    sendRequest fuel w c endpoint payload result
    = Some (mkOutcome
              (Some (ErrWrap "max retries exceeded"
                       (Some (failure (MaxRetries (config c))))))
              result
              (attempts_from c req (Z.to_nat (MaxRetries (config c) + 1)) 0)).
Proof.
  intros Hbuild Hnonneg Hmax Hsel Hdo fuel Hfuel.
  unfold sendRequest. rewrite Hbuild.
  destruct (turns_all_continue w c req
              (fun i e => e = failure i) (fun r => r = result) Hmax Hsel)
    with (n := Z.to_nat (MaxRetries (config c) + 1)) (a := 0)
         (l := @None error) (r := result) (tr := @nil event)
    as (l' & r' & Hturns & -> & Hlast); try lia; try reflexivity.
  { intros i r Hi ->. exists (failure i), result.
    rewrite (attemptRequest_transient w req i result (failure i) (Hdo i Hi)).
    auto. }
  destruct Hlast as [[Hn0 _] | (e & -> & ->)]; [lia |].
  replace fuel
    with (Z.to_nat (MaxRetries (config c) + 1)
          + S (fuel - Z.to_nat (MaxRetries (config c) + 2)))%nat by lia.
  rewrite (retryLoop_turns w c req _ _ _ _ _ _ _ _ _ _ Hturns).
  rewrite retryLoop_exhausted by lia. reflexivity.
Qed.

End OtherPaths.

(** The waits still to come after attempt [a] took [wv] of the budget. *)
Lemma backoff_budget_step (D M a wv : Z) :
  0 <= D -> 0 <= a <= M -> 0 <= wv <= D * a ->
  2 * wv + D * (M * (M + 1) - (a + 1 - 1) * (a + 1))
  <= D * (M * (M + 1) - (a - 1) * a)
  /\ 0 <= D * (M * (M + 1) - (a + 1 - 1) * (a + 1)).
Proof.
  intros HD Ha Hwv.
  assert (Hsq : (a + 1 - 1) * (a + 1) <= M * (M + 1)) by nia.
  assert (Hrest : 0 <= D * (M * (M + 1) - (a + 1 - 1) * (a + 1)))
    by (apply Z.mul_nonneg_nonneg; lia).
  split; [| exact Hrest].
  replace (D * (M * (M + 1) - (a - 1) * a))
    with (D * (M * (M + 1) - (a + 1 - 1) * (a + 1)) + 2 * (D * a)) by ring.
  lia.
Qed.

Section EveryRun.

Context {P R : Type} `{Marshaler P} `{Unmarshaler R}.
Variables (w : World) (c : MoondreamClient) (req : http.Request).

Lemma waited_backoff (a : Z) :
  0 <= RetryDelay (config c) ->
  RetryDelay (config c) * MaxRetries (config c) <= max_int64 ->
  0 <= a <= MaxRetries (config c) ->
  0 <= waited (fst (backoff w c a)) <= RetryDelay (config c) * a.
Proof.
  intros Hdelay Hfit Ha. unfold backoff.
  destruct (Z.ltb_spec 0 a) as [Hpos | Hzero]; [| cbn; nia].
  assert (Hd : retryDelay c a = RetryDelay (config c) * a).
  { unfold retryDelay. apply wrap64_in_range.
    unfold in_int64, min_int64, max_int64 in *. nia. }
  destruct (ctx_select w a (retryDelay c a)); cbn [fst waited]; nia.
Qed.

Lemma attempts_backoff (a : Z) : attempts (fst (backoff w c a)) = 0.
Proof.
  unfold backoff.
  destruct (0 <? a); [destruct (ctx_select w a (retryDelay c a)) |];
    reflexivity.
Qed.

Lemma attemptRequest_comes_back (a : Z) (r : R) :
  comes_back (client_Do w a req) = true ->
  attemptRequest w req a r <> NoReturn.
Proof.
  unfold attemptRequest.
  destruct (client_Do w a req) as [err | status [body | err |] |];
    try discriminate.
  intros _. destruct (400 <=? status).
  - destruct (status <? 500); discriminate.
  - destruct (json_Unmarshal body r) as [r1 [err |]]; discriminate.
Qed.

(** From attempt [a] on the loop ends within the attempts that are left,
    whatever the world does, as long as its calls come back. *)
Lemma retryLoop_bounded (n : nat) :
  MaxRetries (config c) < max_int64 ->
  (forall i, comes_back (client_Do w i req) = true) ->
  forall (a : Z) (l : option error) (r : R) (tr : list event) (fuel : nat),
    0 <= a <= MaxRetries (config c) + 1 ->
    Z.of_nat n = MaxRetries (config c) + 1 - a ->
    (n < fuel)%nat ->
    exists out,
      retryLoop fuel w c req a l r tr = Some out
      /\ attempts (out_trace out) <= attempts tr + Z.of_nat n
      /\ (0 <= RetryDelay (config c) ->
          RetryDelay (config c) * MaxRetries (config c) <= max_int64 ->
          2 * waited (out_trace out)
          <= 2 * waited tr
             + RetryDelay (config c)
               * (MaxRetries (config c) * (MaxRetries (config c) + 1)
                  - (a - 1) * a)).
Proof.
  intros Hmax Hback.
  induction n as [| n IH]; intros a l r tr fuel Ha Hn Hfuel;
    (destruct fuel as [| fuel]; [lia |]).
  - rewrite retryLoop_exhausted by lia. eexists. split; [reflexivity |].
    cbn [out_trace]. split; [lia |]. intros Hdelay Hfit.
    replace a with (MaxRetries (config c) + 1) by lia. nia.
  - assert (Hle : a <= MaxRetries (config c)) by lia.
    pose proof (attempts_backoff a) as Hatt.
    cbn [retryLoop].
    destruct (Z.leb_spec a (MaxRetries (config c))); [| lia].
    assert (Hwait : 0 <= RetryDelay (config c) ->
              RetryDelay (config c) * MaxRetries (config c) <= max_int64 ->
              0 <= waited (fst (backoff w c a)) <= RetryDelay (config c) * a)
      by (intros; apply waited_backoff; lia).
    destruct (backoff w c a) as [evs [e |]]; cbn [fst] in Hatt, Hwait.
    + eexists. split; [reflexivity |]. cbn [out_trace].
      rewrite attempts_app, waited_app. split; [lia |].
      intros Hdelay Hfit. specialize (Hwait Hdelay Hfit).
      pose proof (backoff_budget_step _ (MaxRetries (config c)) a _
                    Hdelay (conj (proj1 Ha) Hle) Hwait).
      lia.
    + assert (Hone : attempts (tr ++ evs ++ [EvDo req]) = attempts tr + 1).
      { rewrite !attempts_app, Hatt. reflexivity. }
      assert (Hw : waited (tr ++ evs ++ [EvDo req]) = waited tr + waited evs).
    { rewrite !waited_app. cbn [waited]. lia. }
    pose proof (attemptRequest_comes_back a r (Hback a)) as Hret.
    destruct (attemptRequest w req a r) as [err r1 | err r1 |];
      [| | contradiction].
      * rewrite wrap64_in_range
          by (unfold in_int64, min_int64, max_int64 in *; lia).
        destruct (IH (a + 1) (Some err) r1 (tr ++ evs ++ [EvDo req]) fuel)
          as (out & Hrun & Hcount & Htime); [lia | lia | lia |].
        exists out. split; [exact Hrun |]. split; [lia |].
        intros Hdelay Hfit. specialize (Hwait Hdelay Hfit).
        specialize (Htime Hdelay Hfit).
        pose proof (backoff_budget_step _ (MaxRetries (config c)) a _
                      Hdelay (conj (proj1 Ha) Hle) Hwait).
        lia.
      * eexists. split; [reflexivity |]. cbn [out_trace].
        split; [lia |]. intros Hdelay Hfit. specialize (Hwait Hdelay Hfit).
        pose proof (backoff_budget_step _ (MaxRetries (config c)) a _
                      Hdelay (conj (proj1 Ha) Hle) Hwait).
        lia.
Qed.

End EveryRun.

Section Bounds.

Context {P R : Type} `{Marshaler P} `{Unmarshaler R}.

(** X11. Provided every call of the transport and every read of a
    response body comes back, then whatever else the file system, the
    context and the server do, a call of the executor ends, after at most
    [MaxRetries + 1] requests (none when [MaxRetries] is negative); when
    the retry delay is not negative and its products with the attempt
    numbers fit in an [int64], the waits it sat through add up to at most
    [RetryDelay * MaxRetries * (MaxRetries + 1) / 2]. (A call that never
    comes back leaves the run without outcome, see
    [sendRequest_silent_server].) *)
Theorem sendRequest_ends_within_bounds
    (w : World) (c : MoondreamClient) (endpoint : string) (payload : P)
    (result : R) :
  MaxRetries (config c) < max_int64 ->
  (forall i r, comes_back (client_Do w i r) = true) ->
  forall fuel : nat,
    (Z.to_nat (MaxRetries (config c) + 2) <= fuel)%nat -> (1 <= fuel)%nat ->
    exists out : outcome R,
      sendRequest fuel w c endpoint payload result = Some out
      /\ attempts (out_trace out) <= Z.max 0 (MaxRetries (config c) + 1)
      /\ (0 <= RetryDelay (config c) ->
          0 <= MaxRetries (config c) ->
          RetryDelay (config c) * MaxRetries (config c) <= max_int64 ->
          2 * waited (out_trace out)
          <= RetryDelay (config c)
             * MaxRetries (config c) * (MaxRetries (config c) + 1)).
Proof.
  intros Hmax Hback fuel Hfuel Hone. unfold sendRequest.
  destruct (buildRequest w c endpoint payload) as [req | err].
  - destruct (Z.lt_ge_cases (MaxRetries (config c)) 0) as [Hneg | Hnonneg].
    + destruct fuel as [| fuel]; [lia |].
      rewrite retryLoop_exhausted by lia.
      eexists. split; [reflexivity |]. cbn [out_trace]. split; [| lia].
      change (attempts []) with 0. lia.
    + destruct (retryLoop_bounded w c req
                (Z.to_nat (MaxRetries (config c) + 1)) Hmax
                (fun i => Hback i req) 0 None result [] fuel)
        as (out & Hrun & Hcount & Htime); [lia | lia | lia |].
      exists out. split; [exact Hrun |].
      change (attempts []) with 0 in Hcount.
      change (waited []) with 0 in Htime.
      split; [lia |]. intros Hdelay _ Hfit.
      specialize (Htime Hdelay Hfit). nia.
  - eexists. split; [reflexivity |]. cbn [out_trace].
    change (attempts []) with 0. change (waited []) with 0.
    split; [lia |]. intros. nia.
Qed.

(** When the transport never comes back, neither does the executor:
    there is no outcome, however long one waits. *)
Lemma sendRequest_silent_server (fuel : nat) :
  sendRequest fuel silent_world test_client "/caption" test_payload
    (mkCaptionResponse "") = None.
Proof. destruct fuel; reflexivity. Qed.

End Bounds.

Section Verdicts.

Context {P R : Type} `{Marshaler P} `{Unmarshaler R}.

(** What stands behind each error the loop can return. *)
Lemma retryLoop_verdict (w : World) (c : MoondreamClient) (req : http.Request)
    (fuel : nat) (a : Z) (l : option error) (r : R) (tr : list event)
    (out : outcome R) :
  retryLoop fuel w c req a l r tr = Some out ->
  match out_err out with
  | None =>
      exists a' r0 status body evs,
        client_Do w a' req = DoResponse status (BodyRead body)
        /\ status < 400
        /\ json_Unmarshal body r0 = (out_result out, None)
        /\ out_trace out = evs ++ [EvDo req]
  | Some (ErrAPI e) =>
      exists a' status body evs,
        client_Do w a' req = DoResponse status (BodyRead body)
        /\ 400 <= status < 500
        /\ e = responseError status body
        /\ out_trace out = evs ++ [EvDo req]
  | Some (ErrContext e) =>
      exists a' evs,
        0 < a'
        /\ ctx_select w a' (retryDelay c a') = CtxDone e
        /\ out_trace out = evs ++ [EvCancelled (retryDelay c a')]
  | Some (ErrWrap msg inner) => msg = "max retries exceeded"
  | Some (ErrLib _ _) => False
  end.
Proof.
  revert a l r tr. induction fuel as [| fuel IH]; intros a l r tr Hrun;
    [discriminate |].
  cbn [retryLoop] in Hrun.
  destruct (a <=? MaxRetries (config c)).
  - unfold backoff in Hrun.
    destruct (Z.ltb_spec 0 a) as [Hpos | Hzero].
    + destruct (ctx_select w a (retryDelay c a)) as [e |] eqn:Hsel.
      * injection Hrun as <-. cbn [out_err out_trace].
        exists a, tr. auto.
      * unfold attemptRequest in Hrun.
        destruct (client_Do w a req) as [err | status [body | err |] |] eqn:Hdo.
        -- exact (IH _ _ _ _ Hrun).
        -- destruct (Z.leb_spec 400 status).
           ++ destruct (Z.ltb_spec status 500).
              ** injection Hrun as <-. cbn [out_err out_trace].
                 exists a, status, body, (tr ++ [EvWait (retryDelay c a)]).
                 rewrite <- app_assoc. repeat split; auto; lia.
              ** exact (IH _ _ _ _ Hrun).
           ++ destruct (json_Unmarshal body r) as [r1 [err |]] eqn:Hun.
              ** exact (IH _ _ _ _ Hrun).
              ** injection Hrun as <-. cbn [out_err out_result out_trace].
                 exists a, r, status, body, (tr ++ [EvWait (retryDelay c a)]).
                 rewrite <- app_assoc. repeat split; auto.
        -- exact (IH _ _ _ _ Hrun).
        -- discriminate.
        -- discriminate.
    + unfold attemptRequest in Hrun.
      destruct (client_Do w a req) as [err | status [body | err |] |] eqn:Hdo.
      * exact (IH _ _ _ _ Hrun).
      * destruct (Z.leb_spec 400 status).
        -- destruct (Z.ltb_spec status 500).
           ++ injection Hrun as <-. cbn [out_err out_trace].
              exists a, status, body, tr. repeat split; auto; lia.
           ++ exact (IH _ _ _ _ Hrun).
        -- destruct (json_Unmarshal body r) as [r1 [err |]] eqn:Hun.
           ++ exact (IH _ _ _ _ Hrun).
           ++ injection Hrun as <-. cbn [out_err out_result out_trace].
              exists a, r, status, body, tr. repeat split; auto.
      * exact (IH _ _ _ _ Hrun).
      * discriminate.
      * discriminate.
  - injection Hrun as <-. reflexivity.
Qed.

End Verdicts.

Section CallVerdicts.

Context {P R : Type} `{Marshaler P} `{Unmarshaler R}.

(** Every outcome of a call traced back to what the world did. *)
Lemma sendRequest_accounted_for
    (w : World) (c : MoondreamClient) (endpoint : string) (payload : P)
    (result : R) (fuel : nat) (out : outcome R) :
  sendRequest fuel w c endpoint payload result = Some out ->
  match out_err out with
  | None =>
      exists req a r0 status body evs,
        buildRequest w c endpoint payload = Ok req
        /\ client_Do w a req = DoResponse status (BodyRead body)
        /\ status < 400
        /\ json_Unmarshal body r0 = (out_result out, None)
        /\ out_trace out = evs ++ [EvDo req]
  | Some (ErrAPI e) =>
      exists req a status body evs,
        buildRequest w c endpoint payload = Ok req
        /\ client_Do w a req = DoResponse status (BodyRead body)
        /\ 400 <= status < 500
        /\ e = responseError status body
        /\ out_trace out = evs ++ [EvDo req]
  | Some (ErrContext e) =>
      exists a evs,
        0 < a
        /\ ctx_select w a (retryDelay c a) = CtxDone e
        /\ out_trace out = evs ++ [EvCancelled (retryDelay c a)]
  | Some (ErrWrap msg inner) =>
      msg = "max retries exceeded"
      \/ (out_trace out = [] /\ out_result out = result
          /\ (msg = "failed to marshal payload"
              \/ msg = "failed to create request"))
  | Some (ErrLib _ _) => False
  end.
Proof.
  unfold sendRequest. intros Hrun.
  destruct (buildRequest w c endpoint payload) as [req | err] eqn:Hbuild.
  - pose proof (retryLoop_verdict w c req _ _ _ _ _ _ Hrun) as Hverdict.
    destruct (out_err out) as [[pkg msg | e | e | msg inner] |].
    + exact Hverdict.
    + exact Hverdict.
    + destruct Hverdict as (a & status & body & evs & Hv).
      exists req, a, status, body, evs. split; [reflexivity | exact Hv].
    + left. exact Hverdict.
    + destruct Hverdict as (a & r0 & status & body & evs & Hv).
      exists req, a, r0, status, body, evs. split; [reflexivity | exact Hv].
  - injection Hrun as <-. cbn [out_err out_trace out_result].
    unfold buildRequest in Hbuild.
    destruct (json_Marshal payload) as [jsonPayload | merr].
    + destruct (http_NewRequestWithContext w "POST"
                  (BaseURL (config c) ++ endpoint)%string jsonPayload);
        [discriminate |].
      injection Hbuild as <-. right. auto.
    + injection Hbuild as <-. right. auto.
Qed.

(** X12. What a call of the executor returns is always accounted for. It
    returns no error only when an attempt got an answer of status below
    400 whose body unmarshalled into the result it leaves; a bare
    [APIError] only for an answer of status 400 to 499, built from that
    answer; an error of the context only when a wait between attempts
    was cut short; and any other error is wrapped: [max retries
    exceeded], or, with nothing sent, [failed to marshal payload] or
    [failed to create request]. An error of a library is never returned
    bare. *)
Theorem sendRequest_verdict
    (w : World) (c : MoondreamClient) (endpoint : string) (payload : P)
    (result : R) (fuel : nat) (out : outcome R) :
  sendRequest fuel w c endpoint payload result = Some out ->
  match out_err out with
  | None =>
      exists req a r0 status body evs,
        buildRequest w c endpoint payload = Ok req
        /\ client_Do w a req = DoResponse status (BodyRead body)
        /\ status < 400
        /\ json_Unmarshal body r0 = (out_result out, None)
        /\ out_trace out = evs ++ [EvDo req]
  | Some (ErrAPI e) =>
      exists req a status body evs,
        buildRequest w c endpoint payload = Ok req
        /\ client_Do w a req = DoResponse status (BodyRead body)
        /\ 400 <= status < 500
        /\ e = responseError status body
        /\ out_trace out = evs ++ [EvDo req]
  | Some (ErrContext e) =>
      exists a evs,
        0 < a
        /\ ctx_select w a (retryDelay c a) = CtxDone e
        /\ out_trace out = evs ++ [EvCancelled (retryDelay c a)]
  | Some (ErrWrap msg inner) =>
      msg = "max retries exceeded"
      \/ (out_trace out = [] /\ out_result out = result
          /\ (msg = "failed to marshal payload"
              \/ msg = "failed to create request"))
  | Some (ErrLib _ _) => False
  end.
Proof. apply sendRequest_accounted_for. Qed.

End CallVerdicts.

(** ** The operations *)

(** A plain byte is written into a JSON string literal as it is. *)
Lemma plain_not_escaped (c : ascii) (r : string) :
  plain c = true ->
  utf8.following c r = Some 0%nat /\ json.escaped c r = None.
Proof.
  destruct c as [[] [] [] [] [] [] [] []]; intros Hplain;
    solve [ discriminate Hplain | split; reflexivity ].
Qed.

Lemma appendString_plain (s : string) :
  forallb plain (list_ascii_of_string s) = true ->
  json.appendString s 0 false = list_ascii_of_string s.
Proof.
  induction s as [| c s IH]; [reflexivity |].
  cbn [list_ascii_of_string forallb]. intros Hall.
  apply andb_true_iff in Hall as [Hc Hrest].
  destruct (plain_not_escaped c s Hc) as [Hfollow Hesc].
  cbn [json.appendString]. rewrite Hfollow, Hesc, (IH Hrest). reflexivity.
Qed.

Lemma quote_plain (s : string) :
  forallb plain (list_ascii_of_string s) = true ->
  json.quote s = String "034" (s ++ String "034" EmptyString)%string.
Proof.
  intros Hall. unfold json.quote.
  rewrite (appendString_plain s Hall), string_of_list_ascii_of_string.
  reflexivity.
Qed.

Lemma encode_plain (v : Z) : 0 <= v < 64 -> plain (base64.encode v) = true.
Proof.
  intros Hv. rewrite <- (Z2Nat.id v) by lia.
  assert (Hn : (Z.to_nat v < 64)%nat) by lia.
  clear Hv. generalize dependent (Z.to_nat v). clear v. intros n Hn.
  do 64 (destruct n as [| n]; [reflexivity |]). lia.
Qed.

Lemma EncodeToString_plain (src : string) :
  forallb plain (list_ascii_of_string (base64.EncodeToString src)) = true.
Proof.
  induction src as [| b0 | b0 b1 | b0 b1 b2 rest IH] using string_by_triples;
    cbn [base64.EncodeToString list_ascii_of_string forallb]; cbv zeta;
    rewrite ?encode_plain by apply sextet_range;
    [reflexivity | reflexivity | reflexivity | exact IH].
Qed.

Lemma list_ascii_of_string_app (s t : string) :
  list_ascii_of_string (s ++ t)%string
  = list_ascii_of_string s ++ list_ascii_of_string t.
Proof.
  induction s as [| c s IH]; [reflexivity |].
  change (String c s ++ t)%string with (String c (s ++ t)%string).
  cbn [list_ascii_of_string app]. rewrite IH. reflexivity.
Qed.

Lemma string_app_assoc (s t u : string) :
  ((s ++ t) ++ u)%string = (s ++ (t ++ u))%string.
Proof.
  induction s as [| c s IH]; [reflexivity |].
  change (String c s ++ t)%string with (String c (s ++ t)%string).
  change (String c (s ++ t) ++ u)%string
    with (String c ((s ++ t) ++ u)%string).
  change (String c s ++ (t ++ u))%string
    with (String c (s ++ (t ++ u))%string).
  rewrite IH. reflexivity.
Qed.

Lemma encodeImage_quote (w : World) (c : MoondreamClient)
    (imagePath uri : string) :
  encodeImage w c imagePath = Ok uri ->
  json.quote uri = String "034" (uri ++ String "034" EmptyString)%string.
Proof.
  intros Henc. unfold encodeImage in Henc.
  destruct (os_ReadFile w imagePath) as [imageData | err]; [| discriminate].
  injection Henc as <-. apply quote_plain.
  rewrite list_ascii_of_string_app, forallb_app, EncodeToString_plain.
  reflexivity.
Qed.

(** X13. The data URI of an image is made of bytes that JSON leaves
    alone: the string literal [Marshal] writes for it is the URI between
    two double quotes, without any escape. *)
Theorem data_URI_quoted_verbatim (w : World) (c : MoondreamClient)
    (imagePath uri : string) :
  encodeImage w c imagePath = Ok uri ->
  json.quote uri = String "034" (uri ++ String "034" EmptyString)%string.
Proof. apply encodeImage_quote. Qed.

Lemma data_URI_quoted_verbatim_witness :
  json.quote "data:image/jpeg;base64,dGVzdCBpbWFnZSBkYXRh"
  = String "034"
      ("data:image/jpeg;base64,dGVzdCBpbWFnZSBkYXRh"
       ++ String "034" EmptyString)%string.
Proof.
  apply (data_URI_quoted_verbatim (server_world 200 "{}") test_client
           "test.jpg" "data:image/jpeg;base64,dGVzdCBpbWFnZSBkYXRh").
  vm_compute. reflexivity.
Defined.


(** What [Query] does with a readable image is what the executor does
    with its payload. *)
Lemma Query_runs_sendRequest (w : World) (c : MoondreamClient)
    (imagePath question imageData : string) (fuel : nat)
    (ret : returned string) :
  os_ReadFile w imagePath = Ok imageData ->
  Query fuel w c imagePath question = Some ret ->
  exists out : outcome QueryResponse,
    sendRequest fuel w c "/query"
      {| QueryRequest_Image :=
           ("data:image/jpeg;base64,"
            ++ base64.EncodeToString imageData)%string;
         Question := question |}
      {| Answer := EmptyString |} = Some out
    /\ ret_trace ret = out_trace out.
Proof.
  intros Hread Hquery. unfold Query, encodeImage in Hquery.
  rewrite Hread in Hquery.
  destruct (sendRequest fuel w c "/query" _ {| Answer := EmptyString |})
    as [out |]; [| discriminate].
  exists out. split; [reflexivity |].
  destruct (out_err out); injection Hquery as <-; reflexivity.
Qed.

Lemma QueryRequest_body (w : World) (c : MoondreamClient)
    (imagePath question imageData : string) :
  os_ReadFile w imagePath = Ok imageData ->
  json_Marshal
    {| QueryRequest_Image :=
         ("data:image/jpeg;base64,"
          ++ base64.EncodeToString imageData)%string;
       Question := question |}
  = Ok (json_text "{'image_url':'"
        ++ "data:image/jpeg;base64," ++ base64.EncodeToString imageData
        ++ json_text "','question':" ++ json.quote question ++ "}")%string.
Proof.
  intros Hread.
  assert (Henc : encodeImage w c imagePath
                 = Ok ("data:image/jpeg;base64,"
                       ++ base64.EncodeToString imageData)%string)
    by (unfold encodeImage; rewrite Hread; reflexivity).
  unfold json_Marshal, QueryRequest_Marshaler.
  cbn [QueryRequest_Image Question].
  rewrite (encodeImage_quote w c imagePath _ Henc).
  repeat (match goal with
          | |- context [json_text ?lit] =>
              let t := eval vm_compute in (json_text lit) in
              change (json_text lit) with t
          end).
  change (json.quote "image_url")
    with (String "034" ("image_url" ++ String "034" EmptyString)%string).
  change (json.quote "question")
    with (String "034" ("question" ++ String "034" EmptyString)%string).
  generalize (json.quote question). intros q.
  generalize (base64.EncodeToString imageData). intros b64.
  f_equal.
  repeat first
    [ rewrite string_app_assoc
    | match goal with
      | |- context [(String ?a ?s ++ ?t)%string] =>
          change (String a s ++ t)%string with (String a (s ++ t)%string)
      | |- context [(EmptyString ++ ?t)%string] =>
          change (EmptyString ++ t)%string with t
      end ].
  reflexivity.
Qed.

(** X14. For a readable image and a URL that is accepted, the request
    the executor builds for [Query] is a POST to the base URL followed by [/query],
    with the API key in [X-Moondream-Auth], created with the body that
    is the JSON object with the data URI of the image, unescaped, under
    [image_url] and the question, as a JSON string, under [question].
    When an attempt is allowed, the first act of [Query] on the network
    is to hand this request to the transport, and whatever it hands over
    is a POST to that URL with that header. (What a later attempt still
    finds in the body, which is read once and not rewound, is not
    stated.) *)
Theorem Query_request (w : World) (c : MoondreamClient)
    (imagePath question imageData : string) :
  os_ReadFile w imagePath = Ok imageData ->
  http_NewRequest_error w "POST" (BaseURL (config c) ++ "/query")%string
  = None ->
  exists req : http.Request,
    buildRequest w c "/query"
      {| QueryRequest_Image :=
           ("data:image/jpeg;base64,"
            ++ base64.EncodeToString imageData)%string;
         Question := question |} = Ok req
    /\ http.Method req = "POST"
    /\ http.URL req = (BaseURL (config c) ++ "/query")%string
    /\ http.Hdr req !! "X-Moondream-Auth" = Some [apiKey c]
    /\ http.Body req
       = (json_text "{'image_url':'"
          ++ "data:image/jpeg;base64," ++ base64.EncodeToString imageData
          ++ json_text "','question':" ++ json.quote question ++ "}")%string
    /\ (0 <= MaxRetries (config c) ->
        forall (fuel : nat) (ret : returned string),
          Query fuel w c imagePath question = Some ret ->
          exists rest, ret_trace ret = EvDo req :: rest)
    /\ (forall (fuel : nat) (ret : returned string) (r : http.Request),
          Query fuel w c imagePath question = Some ret ->
          In (EvDo r) (ret_trace ret) ->
          http.Method r = "POST"
          /\ http.URL r = (BaseURL (config c) ++ "/query")%string
          /\ http.Hdr r !! "X-Moondream-Auth" = Some [apiKey c]).
Proof.
  intros Hread Hurl.
  pose proof (QueryRequest_body w c imagePath question imageData Hread)
    as Hmarshal.
  set (payload := {| QueryRequest_Image :=
                       ("data:image/jpeg;base64,"
                        ++ base64.EncodeToString imageData)%string;
                     Question := question |}) in *.
  set (jsonPayload := (json_text "{'image_url':'"
          ++ "data:image/jpeg;base64," ++ base64.EncodeToString imageData
          ++ json_text "','question':" ++ json.quote question ++ "}")%string)
    in *.
  set (req := http.Header_Set "Content-Type" "application/json"
                (http.Header_Set "X-Moondream-Auth" (apiKey c)
                   {| http.Method := "POST";
                      http.URL := (BaseURL (config c) ++ "/query")%string;
                      http.Hdr := ∅;
                      http.Body := jsonPayload |})).
  assert (Hbuild : buildRequest w c "/query" payload = Ok req).
  { unfold buildRequest, http_NewRequestWithContext.
    rewrite Hmarshal, Hurl. reflexivity. }
  assert (Hauth : http.Hdr req !! "X-Moondream-Auth" = Some [apiKey c]).
  { unfold req, http.Header_Set. cbn [http.Hdr].
    rewrite lookup_insert_ne by discriminate. apply lookup_insert_eq. }
  exists req.
  split; [exact Hbuild |].
  split; [reflexivity |]. split; [reflexivity |]. split; [exact Hauth |].
  split; [reflexivity |]. split.
  - intros Hnonneg fuel ret Hquery.
    destruct (Query_runs_sendRequest w c imagePath question imageData fuel ret
                Hread Hquery) as (out & Hsend & ->).
    exact (sendRequest_first_attempt w c "/query" payload _ req fuel out
             Hbuild Hnonneg Hsend).
  - intros fuel ret r Hquery Hin.
    destruct (Query_runs_sendRequest w c imagePath question imageData fuel ret
                Hread Hquery) as (out & Hsend & Htrace).
    rewrite Htrace in Hin.
    destruct (sendRequest_hands_over_built w c "/query" payload _ req fuel
                out r Hbuild Hsend Hin) as (Hm & Hu & Hh).
    rewrite Hm, Hu, Hh. split; [reflexivity |]. split; [reflexivity |].
    exact Hauth.
Qed.


Section CoordinateOperations.

Variable float64 : Type.
Context `{Unmarshaler (DetectResponse float64)}
        `{Unmarshaler (PointResponse float64)}.

(** X16. When the image cannot be read, [Query], [Detect] and [Point]
    return their zero value with the error of the read wrapped in
    [failed to read image file], and nothing is sent to the server. *)
Theorem operations_unreadable_image (w : World) (c : MoondreamClient)
    (imagePath arg : string) (cause : error) :
  os_ReadFile w imagePath = Err cause ->
  forall fuel : nat,
    Query fuel w c imagePath arg
    = Some (mkReturned EmptyString
              (Some (ErrWrap "failed to read image file" (Some cause))) [])
    /\ Detect float64 fuel w c imagePath arg
       = Some (mkReturned None
                 (Some (ErrWrap "failed to read image file" (Some cause))) [])
    /\ Point float64 fuel w c imagePath arg
       = Some (mkReturned None
                 (Some (ErrWrap "failed to read image file" (Some cause))) []).
Proof.
  intros Hread fuel. unfold Query, Detect, Point, encodeImage.
  rewrite Hread. repeat split.
Qed.


End CoordinateOperations.

(** ** The further properties at sample inputs *)

Lemma sendRequest_negative_retries_witness :
  sendRequest 1 (server_world 200 "{}") no_attempt_client "/caption"
    test_payload (mkCaptionResponse "")
  = Some (mkOutcome (Some (ErrWrap "max retries exceeded" None))
            (mkCaptionResponse "") []).
Proof.
  refine (sendRequest_negative_retries (server_world 200 "{}")
            no_attempt_client "/caption" test_payload (mkCaptionResponse "")
            _ _ _ 0%nat).
  - vm_compute. reflexivity.
  - vm_compute. reflexivity.
Defined.

Lemma sendRequest_success_after_retries_witness :
  sendRequest 2 (flaky_world (json_text "{'caption':'a cat on a mat'}"))
    test_client "/caption" test_payload (mkCaptionResponse "")
  = Some (mkOutcome None (mkCaptionResponse "a cat on a mat")
            [EvDo test_request; EvWait 1000000000; EvDo test_request]).
Proof.
  refine (sendRequest_success_after_retries
            (flaky_world (json_text "{'caption':'a cat on a mat'}"))
            test_client "/caption" test_payload (mkCaptionResponse "")
            test_request 1 1
            (Some (ErrAPI {| StatusCode := 503; Message := "busy" |}))
            (mkCaptionResponse "") (mkCaptionResponse "a cat on a mat")
            [EvDo test_request] 200
            (json_text "{'caption':'a cat on a mat'}") _ _ _ _ _ _ _ 0%nat).
  - vm_compute. reflexivity.
  - vm_compute. reflexivity.
  - vm_compute. discriminate.
  - intros _. reflexivity.
  - reflexivity.
  - lia.
  - vm_compute. reflexivity.
Defined.

Lemma sendRequest_transient_failures_witness :
  sendRequest 5 unreachable_world test_client "/caption" test_payload
    (mkCaptionResponse "")
  = Some (mkOutcome
            (Some (ErrWrap "max retries exceeded"
                     (Some (ErrWrap "failed to send request"
                              (Some (ErrLib "http" "connection refused"))))))
            (mkCaptionResponse "")
            [EvDo test_request;
             EvWait 1000000000; EvDo test_request;
             EvWait 2000000000; EvDo test_request;
             EvWait 3000000000; EvDo test_request]).
Proof.
  refine (sendRequest_transient_failures unreachable_world test_client
            "/caption" test_payload (mkCaptionResponse "") test_request
            (fun _ => ErrWrap "failed to send request"
                        (Some (ErrLib "http" "connection refused")))
            _ _ _ _ _ 5%nat _).
  - vm_compute. reflexivity.
  - vm_compute. discriminate.
  - reflexivity.
  - intros i _. reflexivity.
  - intros i _. reflexivity.
  - vm_compute. lia.
Defined.

Lemma sendRequest_ends_within_bounds_witness :
  exists out : outcome CaptionResponse,
    sendRequest 5 (server_world 503 "busy") test_client "/caption"
      test_payload (mkCaptionResponse "") = Some out
    /\ attempts (out_trace out) <= 4
    /\ 2 * waited (out_trace out) <= 12000000000.
Proof.
  destruct (sendRequest_ends_within_bounds (server_world 503 "busy")
              test_client "/caption" test_payload (mkCaptionResponse ""))
    with (fuel := 5%nat) as (out & Hrun & Hcount & Htime).
  - reflexivity.
  - intros i r. reflexivity.
  - vm_compute. lia.
  - lia.
  - exists out. split; [exact Hrun |]. split; [exact Hcount |].
    apply Htime; vm_compute; discriminate.
Defined.

Lemma sendRequest_verdict_witness :
  exists req a status body evs,
    buildRequest (server_world 404 "not found") test_client "/caption"
      test_payload = Ok req
    /\ client_Do (server_world 404 "not found") a req
       = DoResponse status (BodyRead body)
    /\ 400 <= status < 500
    /\ {| StatusCode := 404; Message := "not found" |}
       = responseError status body
    /\ [EvDo test_request] = evs ++ [EvDo req].
Proof.
  refine (sendRequest_verdict (server_world 404 "not found") test_client
            "/caption" test_payload (mkCaptionResponse "") 1
            (mkOutcome
               (Some (ErrAPI {| StatusCode := 404; Message := "not found" |}))
               (mkCaptionResponse "") [EvDo test_request]) _).
  vm_compute. reflexivity.
Defined.

Lemma Query_request_witness :
  exists req : http.Request,
    buildRequest (server_world 200 (json_text "{'answer':'a cat'}"))
      test_client "/query"
      {| QueryRequest_Image :=
           ("data:image/jpeg;base64,"
            ++ base64.EncodeToString "test image data")%string;
         Question := "What is this?" |} = Ok req
    /\ http.Method req = "POST"
    /\ http.URL req = (BaseURL (config test_client) ++ "/query")%string
    /\ http.Hdr req !! "X-Moondream-Auth" = Some [apiKey test_client]
    /\ http.Body req
       = (json_text "{'image_url':'"
          ++ "data:image/jpeg;base64,"
          ++ base64.EncodeToString "test image data"
          ++ json_text "','question':" ++ json.quote "What is this?"
          ++ "}")%string
    /\ (0 <= MaxRetries (config test_client) ->
        forall (fuel : nat) (ret : returned string),
          Query fuel (server_world 200 (json_text "{'answer':'a cat'}"))
            test_client "test.jpg" "What is this?" = Some ret ->
          exists rest, ret_trace ret = EvDo req :: rest)
    /\ (forall (fuel : nat) (ret : returned string) (r : http.Request),
          Query fuel (server_world 200 (json_text "{'answer':'a cat'}"))
            test_client "test.jpg" "What is this?" = Some ret ->
          In (EvDo r) (ret_trace ret) ->
          http.Method r = "POST"
          /\ http.URL r = (BaseURL (config test_client) ++ "/query")%string
          /\ http.Hdr r !! "X-Moondream-Auth" = Some [apiKey test_client]).
Proof.
  apply (Query_request (server_world 200 (json_text "{'answer':'a cat'}"))
           test_client "test.jpg" "What is this?" "test image data").
  - reflexivity.
  - reflexivity.
Defined.


Lemma operations_unreadable_image_witness :
  Query 1 (server_world 200 "{}") test_client "missing.jpg" "What is this?"
  = Some (mkReturned EmptyString
            (Some (ErrWrap "failed to read image file"
                     (Some (ErrLib "os" "no such file or directory")))) [])
  /\ @Detect Z no_coordinates 1 (server_world 200 "{}") test_client
       "missing.jpg" "What is this?"
     = Some (mkReturned None
               (Some (ErrWrap "failed to read image file"
                        (Some (ErrLib "os" "no such file or directory")))) [])
  /\ @Point Z no_coordinates 1 (server_world 200 "{}") test_client
       "missing.jpg" "What is this?"
     = Some (mkReturned None
               (Some (ErrWrap "failed to read image file"
                        (Some (ErrLib "os" "no such file or directory")))) []).
Proof.
  refine (@operations_unreadable_image Z no_coordinates no_coordinates
            (server_world 200 "{}") test_client "missing.jpg" "What is this?"
            (ErrLib "os" "no such file or directory") _ 1%nat).
  reflexivity.
Defined.
